(** * WinBoat main process (src/main/main.ts)

    A shallow embedding of the Electron main-process bootstrap: the
    window-geometry store, the tray menu built from the config file, tray
    and window creation, the close handler and the IPC handlers, followed by
    the properties of these handlers.

    Framework calls (Electron, fs, electron-store) are not part of the
    repository.  Their results enter the model as inputs ([Env], the bounds
    reported at a close), their calls leave it as entries of an effect
    trace, and the few library behaviours the handlers depend on are written
    out where they are used. *)

From Stdlib Require Import ZArith String List Floats.SpecFloat.
From stdpp Require Import gmap strings list.

Set Warnings "-register-all".
Open Scope Z_scope.
Open Scope string_scope.

(** ** JavaScript values that reach the handlers *)

(** A value produced by [JSON.parse].  Numbers are IEEE doubles.  [JObj]
    lists the own properties of the parsed object (one entry per key). *)
Inductive JSON : Type :=
| JNull
| JBool (b : bool)
| JNum (f : spec_float)
| JStr (s : string)
| JArr (items : list JSON)
| JObj (fields : list (string * JSON)).

(** A JavaScript value that may be [undefined] ([None]). *)
Definition JSVal : Type := option JSON.

Inductive JSError : Type :=
| TypeError (msg : string)
| SyntaxError (msg : string)
| SystemError (code : string).

(** Completion of an expression or statement: a value, or a thrown error. *)
Inductive Outcome (A : Type) : Type :=
| Ret (a : A)
| Throw (e : JSError).
Arguments Ret {A} a.
Arguments Throw {A} e.

(** ToBoolean. *)
Definition truthy (v : JSVal) : bool :=
  match v with
  | None => false
  | Some JNull => false
  | Some (JBool b) => b
  | Some (JNum (S754_zero _)) => false
  | Some (JNum S754_nan) => false
  | Some (JNum _) => true
  | Some (JStr s) => negb (String.eqb s "")
  | Some (JArr _) => true
  | Some (JObj _) => true
  end.

Fixpoint assoc (k : string) (fields : list (string * JSON)) : JSVal :=
  match fields with
  | [] => None
  | (k', v) :: rest => if String.eqb k k' then Some v else assoc k rest
  end.

(** [v.k] for a key that no prototype defines (the program reads
    [recentApps] and [name]): reading from [null] throws, a primitive or an
    array has no such property, an object gives its own property. *)
Definition getProp (v : JSON) (k : string) : Outcome JSVal :=
  match v with
  | JNull => Throw (TypeError ("Cannot read properties of null (reading '" ++ k ++ "')"))
  | JObj fields => Ret (assoc k fields)
  | _ => Ret None
  end.

(** ** The settings store (electron-store with a schema) *)

(* Window Constants *)
Definition WINDOW_MIN_WIDTH : Z := 1280.
Definition WINDOW_MIN_HEIGHT : Z := 800.

(** One top-level entry of the schema: an object whose properties are
    numbers with a default each, the list of required properties, and the
    entry's own [default] (none is declared in main.ts). *)
Record ObjectSchema : Type := {
  sch_properties : list (string * Z);
  sch_required : list string;
  sch_default : option (gmap string Z);
}.

Definition windowStore_schema : list (string * ObjectSchema) :=
  [ ("dimensions",
     {| sch_properties := [("width", WINDOW_MIN_WIDTH); ("height", WINDOW_MIN_HEIGHT)];
        sch_required := ["width"; "height"];
        sch_default := None |});
    ("position",
     {| sch_properties := [("x", 0); ("y", 0)];
        sch_required := ["x"; "y"];
        sch_default := None |}) ].

(** The stored JSON object: top-level key to object, property to number. *)
Abbreviation StoreData := (gmap string (gmap string Z)).

(** Defaults of the properties an existing object lacks. *)
Fixpoint fillProperties (props : list (string * Z)) (o : gmap string Z) : gmap string Z :=
  match props with
  | [] => o
  | (p, d) :: rest =>
      let o' := fillProperties rest o in
      match o' !! p with
      | Some _ => o'
      | None => <[p := d]> o'
      end
  end.

(** electron-store validates the stored object against the schema with
    defaults enabled (ajv's [useDefaults]): a property default is filled in
    inside an object that is present; a top-level key that is missing is
    defaulted only from a [default] of its own. *)
Fixpoint useDefaults (schema : list (string * ObjectSchema)) (d : StoreData) : StoreData :=
  match schema with
  | [] => d
  | (key, sch) :: rest =>
      let d' := useDefaults rest d in
      match d' !! key with
      | Some o => <[key := fillProperties (sch_properties sch) o]> d'
      | None =>
          match sch_default sch with
          | Some o => <[key := fillProperties (sch_properties sch) o]> d'
          | None => d'
          end
      end
  end.

(** [windowStore.get("key.prop")]: dot-notation read of the validated store. *)
Definition Store_get (d : StoreData) (key prop : string) : option Z :=
  useDefaults windowStore_schema d !! key ≫= (.!! prop).

(** An object literal whose property values may be [undefined]. *)
Definition object_of (fields : list (string * option Z)) : gmap string Z :=
  foldr (fun kv o => match kv.2 with Some v => <[kv.1 := v]> o | None => o end) ∅ fields.

(** [windowStore.set(key, value)]: the entry is replaced and the store is
    validated again before it is written. *)
Definition Store_set (d : StoreData) (key : string) (value : list (string * option Z)) : StoreData :=
  useDefaults windowStore_schema (<[key := object_of value]> d).

(** ** Electron objects *)

(** What [getBounds] returns. *)
Record Rectangle : Type := {
  rect_x : Z;
  rect_y : Z;
  rect_width : Z;
  rect_height : Z;
}.

(** The options object given to [new BrowserWindow]. *)
Record WindowOptions : Type := {
  minWidth : Z;
  minHeight : Z;
  width : option Z;
  height : option Z;
  x : option Z;
  y : option Z;
  transparent : bool;
  frame : bool;
  nodeIntegration : bool;
  contextIsolation : bool;
}.

Inductive Content : Type :=
| LoadURL (url : string)
| LoadFile (path : string).

(** A window made by [createWindow].  Calls on a window that was destroyed
    are outside the model: the app is quitting by then. *)
Record BrowserWindow : Type := {
  options : WindowOptions;
  visible : bool;
  destroyed : bool;
  remoteEnabled : bool;
  content : option Content;
}.

Inductive NativeImage : Type :=
| EmptyImage
| ImageFile (path : string)
| Resized (w h : Z) (img : NativeImage).

(** The bodies of the [click] callbacks of the tray menu. *)
Inductive ClickAction : Type :=
| LaunchApp (name : JSVal)
| Navigate (route : string)
| ContainerAction (action : string)
| Quit.

(** An entry of a menu template.  [enabled] is [true] where the template
    leaves it out. *)
Inductive MenuItem : Type :=
| Item (label : JSVal) (enabled : bool) (click : option ClickAction)
| Separator
| Submenu (label : string) (submenu : list MenuItem).

Record Tray : Type := {
  icon : NativeImage;
  contextMenu : option (list MenuItem);
  clickHandler : bool;
  toolTip : option string;
}.

(** Calls into the framework that leave no trace in the objects above. *)
Inductive Effect : Type :=
| ConsoleError (msg : string) (e : JSError)
| ConsoleLog (message : JSVal)
| ShowMessageBoxSync (type title message : string) (buttons : list string)
| AppExit
| AppQuit
| NewBrowserWindow (opts : WindowOptions)
| NewTray (image : NativeImage)
| Send (channel : string) (arg : JSVal)
| Focus
| PreventDefault.

(** ** Program state and environment *)

(** The module-level variables, the settings store, and the trace of
    framework calls made so far (oldest first). *)
Record State : Type := {
  windowStore : StoreData;
  mainWindow : option BrowserWindow;
  tray : option Tray;
  isQuitting : bool;
  trace : list Effect;
}.

(** Outcome of [fs.existsSync(CONFIG_PATH)] followed by
    [JSON.parse(fs.readFileSync(CONFIG_PATH, "utf-8"))]. *)
Inductive ConfigFile : Type :=
| Missing
| Unreadable (e : JSError)
| Unparseable (e : JSError)
| Parsed (config : JSON).

(** What the process observes of its surroundings when a handler runs. *)
Record Env : Type := {
  configFile : ConfigFile;
  isPackaged : bool;
  resourcesPath : string;
  appPath : string;
  existsSync : string -> bool;
  createFromPath : string -> NativeImage;
  requestSingleInstanceLock : bool;
  NODE_ENV : option string;
  rendererPort : option string;
  platform : string;
}.

Definition initial (store : StoreData) : State :=
  {| windowStore := store; mainWindow := None; tray := None;
     isQuitting := false; trace := [] |}.

(** ** Statements: state passing with exceptions *)

Definition M (A : Type) : Type := State -> Outcome A * State.

Definition ret {A} (a : A) : M A := fun s => (Ret a, s).
Definition throw {A} (e : JSError) : M A := fun s => (Throw e, s).
Definition bind {A B} (m : M A) (f : A -> M B) : M B :=
  fun s => match m s with
           | (Ret a, s') => f a s'
           | (Throw e, s') => (Throw e, s')
           end.
Definition lift {A} (o : Outcome A) : M A := fun s => (o, s).
Definition get : M State := fun s => (Ret s, s).
Definition modify (f : State -> State) : M unit := fun s => (Ret tt, f s).

(** [try { body } catch (e) { handler e }] *)
Definition try_catch {A} (body : M A) (handler : JSError -> M A) : M A :=
  fun s => match body s with
           | (Ret a, s') => (Ret a, s')
           | (Throw e, s') => handler e s'
           end.

Notation "'let*' x := m 'in' k" := (bind m (fun x => k))
  (at level 10, x name, m at level 100, k at level 200).
Notation "m ;; k" := (bind m (fun _ => k))
  (at level 100, k at level 200, right associativity).

Definition emit (e : Effect) : M unit :=
  modify (fun s => {| windowStore := windowStore s; mainWindow := mainWindow s;
                      tray := tray s; isQuitting := isQuitting s;
                      trace := trace s ++ [e] |}).
Definition set_windowStore (d : StoreData) : M unit :=
  modify (fun s => {| windowStore := d; mainWindow := mainWindow s;
                      tray := tray s; isQuitting := isQuitting s; trace := trace s |}).
Definition set_mainWindow (w : option BrowserWindow) : M unit :=
  modify (fun s => {| windowStore := windowStore s; mainWindow := w;
                      tray := tray s; isQuitting := isQuitting s; trace := trace s |}).
Definition set_tray (t : option Tray) : M unit :=
  modify (fun s => {| windowStore := windowStore s; mainWindow := mainWindow s;
                      tray := t; isQuitting := isQuitting s; trace := trace s |}).
Definition set_isQuitting (b : bool) : M unit :=
  modify (fun s => {| windowStore := windowStore s; mainWindow := mainWindow s;
                      tray := tray s; isQuitting := b; trace := trace s |}).

(** Method calls on [mainWindow?.]: nothing happens while it is [null]. *)
Definition on_mainWindow (f : BrowserWindow -> BrowserWindow) : M unit :=
  let* s := get in set_mainWindow (f <$> mainWindow s).

Definition show (w : BrowserWindow) : BrowserWindow :=
  {| options := options w; visible := true;
     destroyed := destroyed w; remoteEnabled := remoteEnabled w; content := content w |}.
Definition hide (w : BrowserWindow) : BrowserWindow :=
  {| options := options w; visible := false;
     destroyed := destroyed w; remoteEnabled := remoteEnabled w; content := content w |}.
Definition destroy (w : BrowserWindow) : BrowserWindow :=
  {| options := options w; visible := false;
     destroyed := true; remoteEnabled := remoteEnabled w; content := content w |}.
Definition enable (w : BrowserWindow) : BrowserWindow :=
  {| options := options w; visible := visible w;
     destroyed := destroyed w; remoteEnabled := true; content := content w |}.
Definition load (c : Content) (w : BrowserWindow) : BrowserWindow :=
  {| options := options w; visible := visible w;
     destroyed := destroyed w; remoteEnabled := remoteEnabled w; content := Some c |}.

(** [mainWindow?.webContents.send(channel, arg)] *)
Definition send (channel : string) (arg : JSVal) : M unit :=
  let* s := get in
  match mainWindow s with
  | Some _ => emit (Send channel arg)
  | None => ret tt
  end.

Definition on_tray (f : Tray -> Tray) : M unit :=
  let* s := get in set_tray (f <$> tray s).

Definition setContextMenu (menu : list MenuItem) (t : Tray) : Tray :=
  {| icon := icon t; contextMenu := Some menu;
     clickHandler := clickHandler t; toolTip := toolTip t |}.
Definition setToolTip (tip : string) (t : Tray) : Tray :=
  {| icon := icon t; contextMenu := contextMenu t;
     clickHandler := clickHandler t; toolTip := Some tip |}.
Definition onClick (t : Tray) : Tray :=
  {| icon := icon t; contextMenu := contextMenu t;
     clickHandler := true; toolTip := toolTip t |}.

(** [path.join] on segments that need no normalisation. *)
Definition join (segments : list string) : string := String.concat "/" segments.

(** ** The tray menu *)

(** The body of the [try] block of [updateTrayMenu]: the value [recentApps]
    holds afterwards, or the error thrown before the assignment. *)
Definition readRecentApps (cfg : ConfigFile) (recentApps : JSON) : M JSON :=
  match cfg with
  | Missing => ret recentApps
  | Unreadable e => throw e
  | Unparseable e => throw e
  | Parsed config =>
      let* v := lift (getProp config "recentApps") in
      ret (match v with
           | Some a => if truthy v then a else JArr []
           | None => JArr []
           end)
  end.

(** The callback of [map]: one menu entry per recent app. *)
Definition recentItem (app : JSON) : Outcome MenuItem :=
  match getProp app "name" with
  | Ret name => Ret (Item name true (Some (LaunchApp name)))
  | Throw e => Throw e
  end.

Fixpoint mapO {A B} (f : A -> Outcome B) (l : list A) : Outcome (list B) :=
  match l with
  | [] => Ret []
  | a :: rest =>
      match f a with
      | Throw e => Throw e
      | Ret b =>
          match mapO f rest with
          | Throw e => Throw e
          | Ret bs => Ret (b :: bs)
          end
      end
  end.

(** [recentApps.slice(0, 10).map(...)].  Only an array has both methods: a
    string has [slice] but no [map], any other value has no [slice]. *)
Definition recentAppsMenu_of (recentApps : JSON) : Outcome (list MenuItem) :=
  match recentApps with
  | JArr items => mapO recentItem (take 10 items)
  | JStr _ => Throw (TypeError "recentApps.slice(...).map is not a function")
  | _ => Throw (TypeError "recentApps.slice is not a function")
  end.

Definition labelled (l : string) : JSVal := Some (JStr l).

(** The template given to [Menu.buildFromTemplate]. *)
Definition trayTemplate (recentAppsMenu : list MenuItem) : list MenuItem :=
  [ Item (labelled "WinBoat") false None;
    Separator;
    Item (labelled "Open Apps") true (Some (Navigate "/apps"));
    Item (labelled "Open Configuration") true (Some (Navigate "/config"));
    Separator;
    Submenu "Recent Apps"
      (if (0 <? length recentAppsMenu)%nat then recentAppsMenu
       else [Item (labelled "No recent apps") false None]);
    Separator;
    Item (labelled "Run Container") true (Some (ContainerAction "start"));
    Item (labelled "Pause Container") true (Some (ContainerAction "pause"));
    Separator;
    Item (labelled "Quit") true (Some Quit) ].

(** A label the native menu takes: a string, or none given ([undefined]
    or [null], for which the default label is used). *)
Definition validLabel (l : JSVal) : bool :=
  match l with
  | None => true
  | Some JNull => true
  | Some (JStr _) => true
  | Some _ => false
  end.

Fixpoint itemValid (m : MenuItem) : bool :=
  match m with
  | Item l _ _ => validLabel l
  | Separator => true
  | Submenu _ sub => forallb itemValid sub
  end.

(** [Menu.buildFromTemplate(template)]: the label of a menu item is a
    string; inserting an item whose label is a number, a boolean, an object
    or an array is refused with an error. *)
Definition buildFromTemplate (template : list MenuItem) : Outcome (list MenuItem) :=
  if forallb itemValid template then Ret template
  else Throw (TypeError "Error processing argument at index 2, conversion failure").

Definition updateTrayMenu (env : Env) : M unit :=
  let* s := get in
  match tray s with
  | None => ret tt
  | Some _ =>
      let* recentApps :=
        try_catch (readRecentApps (configFile env) (JArr []))
          (fun e => emit (ConsoleError "Failed to read config for tray" e) ;; ret (JArr [])) in
      let* recentAppsMenu := lift (recentAppsMenu_of recentApps) in
      let* contextMenu := lift (buildFromTemplate (trayTemplate recentAppsMenu)) in
      on_tray (setContextMenu contextMenu)
  end.

(** [nativeImage.createFromPath] gives an image for every path (an empty one
    when the file is missing or is no image), and [new Tray] takes any
    image: neither call throws. *)
Definition createTray (env : Env) : M unit :=
  (* Try to find the logo *)
  let base := if isPackaged env then resourcesPath env else appPath env in
  let iconPath := join [base; "icons"; "winboat_logo.png"] in
  let iconPath :=
    if negb (existsSync env iconPath)
    then join [base; "icons"; "winboat_logo.svg"]
    else iconPath in
  let icon := createFromPath env iconPath in
  let image := Resized 16 16 icon in
  emit (NewTray image) ;;
  set_tray (Some {| icon := image; contextMenu := None;
                    clickHandler := false; toolTip := None |}) ;;
  updateTrayMenu env ;;
  on_tray onClick ;;
  on_tray (setToolTip "WinBoat").

(** ** The window *)

Definition LF : string := String (Ascii.ascii_of_nat 10) "".
Definition TAB : string := String (Ascii.ascii_of_nat 9) "".

Definition instanceRunningDialog : Effect :=
  ShowMessageBoxSync "error" "WinBoat"
    ("An instance of WinBoat is already running." ++ LF ++ TAB
     ++ "Multiple Instances are not allowed.")
    ["Close"].

(** The options object of [new BrowserWindow({...})]. *)
Definition windowOptions (d : StoreData) : WindowOptions :=
  {| minWidth := WINDOW_MIN_WIDTH;
     minHeight := WINDOW_MIN_HEIGHT;
     width := Store_get d "dimensions" "width";
     height := Store_get d "dimensions" "height";
     x := Store_get d "position" "x";
     y := Store_get d "position" "y";
     transparent := false;
     frame := false;
     nodeIntegration := true;
     contextIsolation := false |}.

(** [app.exit()] exits immediately: the process ends inside the [if], and
    the statements after it run only when the lock was acquired. *)
Definition createWindow (env : Env) : M unit :=
  if negb (requestSingleInstanceLock env) then
    emit instanceRunningDialog ;;
    emit AppExit
  else
    let* s := get in
    let opts := windowOptions (windowStore s) in
    emit (NewBrowserWindow opts) ;;
    set_mainWindow (Some {| options := opts; visible := true; destroyed := false;
                            remoteEnabled := false; content := None |}) ;;
    on_mainWindow enable ;;
    if bool_decide (NODE_ENV env = Some "development") then
      on_mainWindow (load (LoadURL ("http://localhost:"
                                    ++ default "undefined" (rendererPort env))))
    else
      on_mainWindow (load (LoadFile (join [appPath env; "renderer"; "index.html"]))).

(** The listener of the main window's [close] event.  [b] is what
    [getBounds] reports; the result tells whether the close was prevented. *)
Definition on_close (b : Rectangle) : M bool :=
  let* s := get in
  if negb (isQuitting s) then
    emit PreventDefault ;;
    on_mainWindow hide ;;
    ret true
  else
    let bounds := (fun _ => b) <$> mainWindow s in
    set_windowStore (Store_set (windowStore s) "dimensions"
                       [("width", rect_width <$> bounds);
                        ("height", rect_height <$> bounds)]) ;;
    let* s := get in
    set_windowStore (Store_set (windowStore s) "position"
                       [("x", rect_x <$> bounds);
                        ("y", rect_y <$> bounds)]) ;;
    ret false.

(** ** Response headers *)

Definition CONTENT_SECURITY_POLICY : list string :=
  [ "script-src 'self' 'unsafe-eval' 'wasm-unsafe-eval' 'unsafe-inline'";
    "worker-src 'self' blob:";
    "media-src 'self' blob:";
    "font-src 'self' 'unsafe-inline' https://fonts.gstatic.com;";
    "style-src 'self' 'unsafe-inline' https://fonts.googleapis.com" ].

(** The [responseHeaders] object handed to the callback of
    [onHeadersReceived]; [details.responseHeaders] may be [undefined]. *)
Definition onHeadersReceived (responseHeaders : option (gmap string (list string)))
  : gmap string (list string) :=
  <["Content-Security-Policy" := CONTENT_SECURITY_POLICY]> (default ∅ responseHeaders).

(** ** Handlers and the event loop *)

(** The [click] callbacks of the tray menu entries. *)
Definition click (a : ClickAction) : M unit :=
  match a with
  | LaunchApp name => send "launch-app-by-name" name ;; on_mainWindow show
  | Navigate route => send "navigate" (labelled route) ;; on_mainWindow show
  | ContainerAction action => send "container-action" (labelled action)
  | Quit => set_isQuitting true ;; emit AppQuit
  end.

(** The entry the user picks: the [i]-th of the menu, or the [j]-th of the
    submenu at [i]. *)
Definition pick (menu : list MenuItem) (i : nat) (j : option nat) : option MenuItem :=
  match menu !! i, j with
  | Some (Submenu _ sub), Some j => sub !! j
  | Some (Submenu _ _), None => None
  | Some item, None => Some item
  | _, _ => None
  end.

Inductive Event : Type :=
| Ready (env : Env)
| Activate (env : Env)
| WindowAllClosed (env : Env)
| SecondInstance
| Close (bounds : Rectangle)
| IpcMessage (message : JSVal)
| IpcUpdateTray (env : Env)
| IpcInitTray (env : Env)
| TrayClick
| MenuClick (i : nat) (j : option nat).

(** [BrowserWindow.getAllWindows().length === 0]: every window is created
    by [createWindow] and kept in [mainWindow]. *)
Definition noWindows (s : State) : bool :=
  match mainWindow s with
  | Some w => destroyed w
  | None => true
  end.

Definition handle (ev : Event) : M unit :=
  match ev with
  | Ready env => createWindow env
  | Activate env =>
      let* s := get in
      if noWindows s then createWindow env else ret tt
  | WindowAllClosed env =>
      if bool_decide (platform env = "darwin") then ret tt else emit AppQuit
  | SecondInstance =>
      let* s := get in
      match mainWindow s with
      | Some _ => emit Focus
      | None => ret tt
      end
  | Close b =>
      (* the listener belongs to the window made by [createWindow]; a close
         that is not prevented destroys the window *)
      let* s := get in
      match mainWindow s with
      | Some w =>
          if destroyed w then ret tt
          else
            let* prevented := on_close b in
            if prevented then ret tt else on_mainWindow destroy
      | None => ret tt
      end
  | IpcMessage message => emit (ConsoleLog message)
  | IpcUpdateTray env => updateTrayMenu env
  | IpcInitTray env =>
      let* s := get in
      match tray s with
      | None => createTray env
      | Some _ => ret tt
      end
  | TrayClick =>
      let* s := get in
      match tray s, mainWindow s with
      | Some t, Some _ =>
          if clickHandler t then on_mainWindow show ;; emit Focus else ret tt
      | _, _ => ret tt
      end
  | MenuClick i j =>
      let* s := get in
      match tray s with
      | Some {| contextMenu := Some menu |} =>
          match pick menu i j with
          | Some (Item _ true (Some a)) => click a
          | _ => ret tt
          end
      | _ => ret tt
      end
  end.

(** One turn of the event loop.  An error that escapes a handler is
    reported by the framework; the state the handler reached stays. *)
Definition step (s : State) (ev : Event) : State := (handle ev s).2.

Definition run (s : State) (evs : list Event) : State := foldl step s evs.

(** The number of [Tray] objects constructed so far. *)
Definition is_NewTray (e : Effect) : bool :=
  match e with NewTray _ => true | _ => false end.
Definition traysCreated (s : State) : nat :=
  length (List.filter is_NewTray (trace s)).

(** ** Observations used in the statements *)

(** What validation does to the entry stored under [key]. *)
Definition validated (key : string) (o : gmap string Z) : gmap string Z :=
  if bool_decide (key = "dimensions")
  then fillProperties [("width", WINDOW_MIN_WIDTH); ("height", WINDOW_MIN_HEIGHT)] o
  else if bool_decide (key = "position")
  then fillProperties [("x", 0); ("y", 0)] o
  else o.

(** The geometry the store holds, when all four numbers can be read. *)
Definition storedGeometry (d : StoreData) : option Rectangle :=
  match Store_get d "position" "x", Store_get d "position" "y",
        Store_get d "dimensions" "width", Store_get d "dimensions" "height" with
  | Some px, Some py, Some w, Some h =>
      Some {| rect_x := px; rect_y := py; rect_width := w; rect_height := h |}
  | _, _, _, _ => None
  end.

(** The geometry a window is created with, when all four options are given. *)
Definition createdGeometry (o : WindowOptions) : option Rectangle :=
  match x o, y o, width o, height o with
  | Some px, Some py, Some w, Some h =>
      Some {| rect_x := px; rect_y := py; rect_width := w; rect_height := h |}
  | _, _, _, _ => None
  end.

(** The submenu of the first entry of the menu labelled [l]. *)
Fixpoint submenuOf (l : string) (menu : list MenuItem) : option (list MenuItem) :=
  match menu with
  | [] => None
  | Submenu l' sub :: rest => if String.eqb l l' then Some sub else submenuOf l rest
  | _ :: rest => submenuOf l rest
  end.

(** The Recent Apps submenu of the menu set on the tray. *)
Definition recentAppsSubmenu (s : State) : option (list MenuItem) :=
  match tray s with
  | Some {| contextMenu := Some menu |} => submenuOf "Recent Apps" menu
  | _ => None
  end.

Definition itemLabel (m : MenuItem) : JSVal :=
  match m with
  | Item l _ _ => l
  | Separator => None
  | Submenu l _ => labelled l
  end.

(** The [name] field of a [{name}] entry of [recentApps]. *)
Definition nameOf (app : JSON) : JSVal :=
  match app with
  | JObj fields => assoc "name" fields
  | _ => None
  end.

(** A [{name}] entry: an object whose [name] is a string. *)
Definition isEntry (app : JSON) : bool :=
  match app with
  | JObj fields =>
      match assoc "name" fields with
      | Some (JStr _) => true
      | _ => false
      end
  | _ => false
  end.

Definition isNull (v : JSON) : bool :=
  match v with JNull => true | _ => false end.

(** The error the [try] block of [updateTrayMenu] catches, if any. *)
Definition readFailure (cfg : ConfigFile) : option JSError :=
  match cfg with
  | Missing => None
  | Unreadable e => Some e
  | Unparseable e => Some e
  | Parsed config =>
      match getProp config "recentApps" with
      | Throw e => Some e
      | Ret _ => None
      end
  end.

(** The [recentApps] property of the parsed config, when it is truthy. *)
Definition configuredApps (cfg : ConfigFile) : option JSON :=
  match cfg with
  | Parsed config =>
      match getProp config "recentApps" with
      | Ret (Some a) => if truthy (Some a) then Some a else None
      | _ => None
      end
  | _ => None
  end.

(** An entry a menu item can be made of: it is not [null] and its [name]
    is a string or is missing. *)
Definition isUsable (app : JSON) : bool :=
  negb (isNull app) &&
  match nameOf app with
  | None => true
  | Some (JStr _) => true
  | Some _ => false
  end.

(** Config files whose [recentApps], if the read yields one, is an array
    whose first ten entries can each be made a menu item of. *)
Definition listShaped (cfg : ConfigFile) : bool :=
  match configuredApps cfg with
  | Some (JArr items) => forallb isUsable (take 10 items)
  | Some _ => false
  | None => true
  end.

Definition isDialog (e : Effect) : bool :=
  match e with ShowMessageBoxSync _ _ _ _ => true | _ => false end.
Definition isExit (e : Effect) : bool :=
  match e with AppExit => true | _ => false end.
Definition isNewWindow (e : Effect) : bool :=
  match e with NewBrowserWindow _ => true | _ => false end.

(** The tray menu entry picked by a click at [i] (and [j]) is Quit. *)
Definition picksQuit (s : State) (i : nat) (j : option nat) : Prop :=
  exists t menu l,
    tray s = Some t /\ contextMenu t = Some menu /\
    pick menu i j = Some (Item l true (Some Quit)).

Definition pngPath (env : Env) : string :=
  join [if isPackaged env then resourcesPath env else appPath env; "icons"; "winboat_logo.png"].
Definition svgPath (env : Env) : string :=
  join [if isPackaged env then resourcesPath env else appPath env; "icons"; "winboat_logo.svg"].

(** The store after the two writes of a close with bounds [b]. *)
Definition savedOnClose (s : State) (b : Rectangle) : StoreData :=
  Store_set
    (Store_set (windowStore s) "dimensions"
       [("width", Some (rect_width b)); ("height", Some (rect_height b))])
    "position" [("x", Some (rect_x b)); ("y", Some (rect_y b))].

(** The window [createWindow] makes, by where it loads its page from. *)
Definition createdWindow (env : Env) (d : StoreData) : BrowserWindow :=
  {| options := windowOptions d; visible := true; destroyed := false;
     remoteEnabled := true;
     content :=
       Some (if bool_decide (NODE_ENV env = Some "development")
             then LoadURL ("http://localhost:" ++ default "undefined" (rendererPort env))
             else LoadFile (join [appPath env; "renderer"; "index.html"])) |}.

(** A statement leaves the observation [f] of the state as it was. *)
Definition keeps {A B} (f : State -> B) (m : M A) : Prop :=
  forall s, f (m s).2 = f s.

Definition hasTray (s : State) : bool :=
  match tray s with Some _ => true | None => false end.

(** The menu entry [updateTrayMenu] makes of a [recentApps] entry. *)
Definition entryItem (app : JSON) : MenuItem :=
  Item (nameOf app) true (Some (LaunchApp (nameOf app))).

Definition noRecentApps : MenuItem := Item (labelled "No recent apps") false None.

(** What [updateTrayMenu] logs: the error its [catch] receives. *)
Definition logged (cfg : ConfigFile) : list Effect :=
  match readFailure cfg with
  | Some e => [ConsoleError "Failed to read config for tray" e]
  | None => []
  end.

(** The value of [recentApps] after the [try] statement. *)
Definition recentAppsRead (cfg : ConfigFile) : JSON :=
  default (JArr []) (configuredApps cfg).

(** The menu [updateTrayMenu] builds from the config, or the error thrown
    by [slice], [map] or [Menu.buildFromTemplate]. *)
Definition contextMenuOf (cfg : ConfigFile) : Outcome (list MenuItem) :=
  match recentAppsMenu_of (recentAppsRead cfg) with
  | Ret m => buildFromTemplate (trayTemplate m)
  | Throw e => Throw e
  end.

(** The path [createTray] loads the icon from. *)
Definition iconPathOf (env : Env) : string :=
  if existsSync env (pngPath env) then pngPath env else svgPath env.

Definition trayImage (env : Env) : NativeImage :=
  Resized 16 16 (createFromPath env (iconPathOf env)).

(** As many [Tray] objects were constructed as the [tray] variable holds. *)
Definition trayInv (s : State) : Prop :=
  traysCreated s = if hasTray s then 1%nat else 0%nat.

(** ** Sample inputs *)

Definition sampleEnv (cfg : ConfigFile) (lock : bool) : Env :=
  {| configFile := cfg;
     isPackaged := false;
     resourcesPath := "/opt/winboat/resources";
     appPath := "/opt/winboat/app";
     existsSync := fun _ => false;
     createFromPath := fun _ => EmptyImage;
     requestSingleInstanceLock := lock;
     NODE_ENV := None;
     rendererPort := None;
     platform := "linux" |}.

Definition savedStore : StoreData :=
  {[ "dimensions" := {[ "width" := 1280; "height" := 800 ]};
     "position" := {[ "x" := 0; "y" := 0 ]} ]}.

Definition movedBounds : Rectangle :=
  {| rect_x := 10; rect_y := 20; rect_width := 1400; rect_height := 900 |}.

(** The app after start-up with a saved geometry: the window is open and
    Quit has not been chosen. *)
Definition startedState : State :=
  run (initial savedStore) [Ready (sampleEnv Missing true)].

(** The same with a tray and its menu. *)
Definition trayState : State :=
  run (initial savedStore) [Ready (sampleEnv Missing true); IpcInitTray (sampleEnv Missing true)].

(** [{"recentApps": []}], [{"recentApps": true}] and a list of two apps. *)
Definition emptyListConfig : ConfigFile := Parsed (JObj [("recentApps", JArr [])]).
Definition notAListConfig : ConfigFile := Parsed (JObj [("recentApps", JBool true)]).
Definition twoAppsConfig : ConfigFile :=
  Parsed (JObj [("recentApps",
                 JArr [JObj [("name", JStr "Notepad")]; JObj [("name", JStr "Paint")]])]).

Definition sampleHeaders : gmap string (list string) :=
  {[ "Content-Type" := ["text/html"];
     "Content-Security-Policy" := ["default-src 'none'"] ]}.

(** The app after the click on Quit (entry 10 of the tray menu). *)
Definition quittingState : State := run trayState [MenuClick 10 None].

(** A run in which the geometry is written: start, tray, Quit, close. *)
Definition quitRun : list Event :=
  [ Ready (sampleEnv Missing true); IpcInitTray (sampleEnv Missing true);
    MenuClick 10 None ].

(** The tray of [trayState]. *)
Definition sampleTray : Tray :=
  {| icon := Resized 16 16 EmptyImage;
     contextMenu := Some (trayTemplate []);
     clickHandler := true;
     toolTip := Some "WinBoat" |}.

(** ** Further observations *)

(** The parts of a tray that only [createTray] sets. *)
Definition trayFixture (s : State) : option (NativeImage * bool * option string) :=
  (fun t => (icon t, clickHandler t, toolTip t)) <$> tray s.

(** The main window exists and was not destroyed. *)
Definition alive (s : State) : bool :=
  match mainWindow s with
  | Some w => negb (destroyed w)
  | None => false
  end.

(** The number of [BrowserWindow] objects constructed so far. *)
Definition windowsCreated (s : State) : nat :=
  length (List.filter isNewWindow (trace s)).

(** The number of error dialogs shown and of [app.exit()] calls so far. *)
Definition alerts (s : State) : nat :=
  length (List.filter (fun e => isDialog e || isExit e) (trace s)).

(** The event is handled with the single-instance lock held. *)
Definition lockHeld (ev : Event) : bool :=
  match ev with
  | Ready env => requestSingleInstanceLock env
  | Activate env => requestSingleInstanceLock env
  | _ => true
  end.

Definition notReady (ev : Event) : bool :=
  match ev with Ready _ => false | _ => true end.

(** Position of the entries in the tray menu template. *)
Definition OPEN_APPS : nat := 2.
Definition OPEN_CONFIGURATION : nat := 3.
Definition RECENT_APPS : nat := 5.
Definition RUN_CONTAINER : nat := 7.
Definition PAUSE_CONTAINER : nat := 8.
Definition QUIT : nat := 10.

(** Config files on which [updateTrayMenu] throws after the read: a truthy
    [recentApps] that is no array, or an array with, among its first ten
    entries, a [null] or an entry whose [name] is a number, a boolean, an
    object or an array. *)
Definition refused (cfg : ConfigFile) : bool :=
  match configuredApps cfg with
  | Some (JArr items) =>
      existsb (fun app => isNull app || negb (validLabel (nameOf app))) (take 10 items)
  | Some _ => true
  | None => false
  end.

(** [{"recentApps": [{"name": true}]}] *)
Definition badNameConfig : ConfigFile :=
  Parsed (JObj [("recentApps", JArr [JObj [("name", JBool true)]])]).

(** [{"recentApps": [null]}] and a list with eleven apps. *)
Definition nullEntryConfig : ConfigFile := Parsed (JObj [("recentApps", JArr [JNull])]).
Definition elevenApps : list JSON :=
  map (fun n => JObj [("name", JStr n)])
    ["a"; "b"; "c"; "d"; "e"; "f"; "g"; "h"; "i"; "j"; "k"].
Definition elevenAppsConfig : ConfigFile :=
  Parsed (JObj [("recentApps", JArr elevenApps)]).

(** The app with the two sample apps in its tray menu. *)
Definition twoAppsState : State :=
  run trayState [IpcUpdateTray (sampleEnv twoAppsConfig true)].

Open Scope list_scope.

(** ** Properties of the settings store *)

Section store.
Implicit Types (d : StoreData) (o : gmap string Z).

Lemma fillProperties_lookup_Some props o p v :
  o !! p = Some v -> fillProperties props o !! p = Some v.
Proof.
  intros Hp. induction props as [|[q dq] rest IH]; simpl; [done|].
  destruct (fillProperties rest o !! q) eqn:Hq; [done|].
  destruct (decide (q = p)) as [->|Hne]; [congruence|].
  by rewrite lookup_insert_ne.
Qed.

Lemma useDefaults_lookup d key :
  useDefaults windowStore_schema d !! key = validated key <$> d !! key.
Proof.
  unfold validated, windowStore_schema. cbn [useDefaults sch_default sch_properties].
  destruct (d !! "position") as [op|] eqn:Hp;
    destruct (d !! "dimensions") as [od|] eqn:Hd;
    repeat (rewrite ?lookup_insert_ne, ?Hp, ?Hd by done; cbn [sch_default]);
    repeat case_bool_decide; subst; simplify_map_eq; try done;
    try (by destruct (d !! key)).
Qed.

Lemma Store_get_lookup d key prop :
  Store_get d key prop = d !! key ≫= (fun o => validated key o !! prop).
Proof.
  unfold Store_get. rewrite useDefaults_lookup. by destruct (d !! key).
Qed.

Lemma Store_set_lookup d key value key' :
  Store_set d key value !! key' =
  if bool_decide (key = key') then Some (validated key (object_of value))
  else validated key' <$> d !! key'.
Proof.
  unfold Store_set. rewrite useDefaults_lookup.
  case_bool_decide; subst; [by rewrite lookup_insert_eq | by rewrite lookup_insert_ne].
Qed.

Lemma validated_lookup_Some key o prop v :
  o !! prop = Some v -> validated key o !! prop = Some v.
Proof.
  intros H. unfold validated.
  repeat case_bool_decide; try done; by apply fillProperties_lookup_Some.
Qed.

(** A value written under [key] is the value read back, also after a later
    write under another key. *)
Lemma Store_get_set_eq d key value prop v :
  object_of value !! prop = Some v ->
  Store_get (Store_set d key value) key prop = Some v.
Proof.
  intros H. rewrite Store_get_lookup, Store_set_lookup, bool_decide_eq_true_2 by done.
  simpl. by do 2 apply validated_lookup_Some.
Qed.

Lemma Store_get_set_ne d key value key' value' prop v :
  key <> key' ->
  object_of value !! prop = Some v ->
  Store_get (Store_set (Store_set d key value) key' value') key prop = Some v.
Proof.
  intros Hne H.
  rewrite Store_get_lookup, Store_set_lookup, bool_decide_eq_false_2 by done.
  rewrite Store_set_lookup, bool_decide_eq_true_2 by done.
  simpl. by do 3 apply validated_lookup_Some.
Qed.

(** A store with nothing saved gives [undefined] for every key: no
    top-level entry of the schema has a default of its own. *)
Lemma Store_get_empty key prop : Store_get ∅ key prop = None.
Proof. by rewrite Store_get_lookup, lookup_empty. Qed.

(** The property defaults do apply inside an entry that exists. *)
Lemma Store_get_partial d :
  d !! "dimensions" = Some ∅ ->
  Store_get d "dimensions" "width" = Some WINDOW_MIN_WIDTH /\
  Store_get d "dimensions" "height" = Some WINDOW_MIN_HEIGHT.
Proof. intros H. rewrite !Store_get_lookup, H. done. Qed.
End store.

(** ** The close handler *)

Ltac object_lookup := unfold object_of; simpl; by simplify_map_eq.

Lemma on_close_quitting s b w :
  mainWindow s = Some w -> isQuitting s = true ->
  on_close b s =
  (Ret false,
   {| windowStore := savedOnClose s b; mainWindow := mainWindow s; tray := tray s;
      isQuitting := isQuitting s; trace := trace s |}).
Proof.
  intros Hw Hq. destruct s; simpl in *; subst. reflexivity.
Qed.

Lemma on_close_not_quitting s b :
  isQuitting s = false ->
  on_close b s =
  (Ret true,
   {| windowStore := windowStore s; mainWindow := hide <$> mainWindow s; tray := tray s;
      isQuitting := isQuitting s; trace := trace s ++ [PreventDefault] |}).
Proof.
  intros Hq. destruct s; simpl in *; subst. reflexivity.
Qed.

Lemma storedGeometry_savedOnClose s b : storedGeometry (savedOnClose s b) = Some b.
Proof.
  unfold storedGeometry, savedOnClose.
  rewrite (Store_get_set_eq _ "position" _ "x" (rect_x b)) by object_lookup.
  rewrite (Store_get_set_eq _ "position" _ "y" (rect_y b)) by object_lookup.
  rewrite (Store_get_set_ne _ "dimensions" _ "position" _ "width" (rect_width b))
    by (done || object_lookup).
  rewrite (Store_get_set_ne _ "dimensions" _ "position" _ "height" (rect_height b))
    by (done || object_lookup).
  by destruct b.
Qed.

(** ** The window *)

Lemma createWindow_result env s :
  requestSingleInstanceLock env = true ->
  createWindow env s =
  (Ret tt,
   {| windowStore := windowStore s;
      mainWindow := Some (createdWindow env (windowStore s));
      tray := tray s;
      isQuitting := isQuitting s;
      trace := trace s ++ [NewBrowserWindow (windowOptions (windowStore s))] |}).
Proof.
  intros Hlock. destruct s. unfold createWindow, createdWindow. rewrite Hlock.
  unfold bind. simpl. case_bool_decide; reflexivity.
Qed.

Lemma createWindow_no_lock env s :
  requestSingleInstanceLock env = false ->
  createWindow env s =
  (Ret tt,
   {| windowStore := windowStore s;
      mainWindow := mainWindow s;
      tray := tray s;
      isQuitting := isQuitting s;
      trace := trace s ++ [instanceRunningDialog; AppExit] |}).
Proof.
  intros Hlock. destruct s. unfold createWindow. rewrite Hlock.
  unfold bind. simpl. unfold emit, modify. simpl. by rewrite <- app_assoc.
Qed.

Lemma createdGeometry_stored d r :
  storedGeometry d = Some r -> createdGeometry (windowOptions d) = Some r.
Proof. unfold storedGeometry, createdGeometry. simpl. done. Qed.

Lemma handle_Close_quitting s b w :
  mainWindow s = Some w -> destroyed w = false -> isQuitting s = true ->
  handle (Close b) s =
  (Ret tt,
   {| windowStore := savedOnClose s b; mainWindow := Some (destroy w); tray := tray s;
      isQuitting := true; trace := trace s |}).
Proof.
  intros Hw Hd Hq. destruct s; simpl in *; subst.
  unfold bind; simpl. rewrite Hd. reflexivity.
Qed.

Lemma handle_Close_not_quitting s b w :
  mainWindow s = Some w -> destroyed w = false -> isQuitting s = false ->
  handle (Close b) s =
  (Ret tt,
   {| windowStore := windowStore s; mainWindow := Some (hide w); tray := tray s;
      isQuitting := false; trace := trace s ++ [PreventDefault] |}).
Proof.
  intros Hw Hd Hq. destruct s; simpl in *; subst.
  unfold bind; simpl. rewrite Hd. reflexivity.
Qed.

(** C1 (as amended): the four geometry options of a new window (made when
    the single-instance lock is held) are the four reads of the settings
    store, so a saved geometry is the geometry the window is created with;
    and a close of the main window while
    [isQuitting] is true leaves the store holding exactly the bounds the
    window had at that close. *)
Theorem geometry_read_at_startup_written_at_quitting_close :
  (forall env s,
     requestSingleInstanceLock env = true ->
     let w := createdWindow env (windowStore s) in
     mainWindow (createWindow env s).2 = Some w /\
     width (options w) = Store_get (windowStore s) "dimensions" "width" /\
     height (options w) = Store_get (windowStore s) "dimensions" "height" /\
     x (options w) = Store_get (windowStore s) "position" "x" /\
     y (options w) = Store_get (windowStore s) "position" "y" /\
     (forall r, storedGeometry (windowStore s) = Some r ->
                createdGeometry (options w) = Some r)) /\
  (forall s b w,
     mainWindow s = Some w -> destroyed w = false -> isQuitting s = true ->
     storedGeometry (windowStore (on_close b s).2) = Some b /\
     storedGeometry (windowStore (step s (Close b))) = Some b).
Proof.
  split.
  - intros env s Hlock w. rewrite createWindow_result by done. simpl.
    repeat split; auto using createdGeometry_stored.
  - intros s b w Hw Hd Hq. unfold step.
    rewrite (on_close_quitting s b w), (handle_Close_quitting s b w) by done.
    simpl. split; apply storedGeometry_savedOnClose.
Qed.

(** ** Frame rules for statements *)

Section keeps.
Context {B : Type} (f : State -> B).

Lemma keeps_ret {A} (a : A) : keeps f (ret a).
Proof. by intros s. Qed.

Lemma keeps_throw {A} e : keeps f (@throw A e).
Proof. by intros s. Qed.

Lemma keeps_lift {A} (o : Outcome A) : keeps f (lift o).
Proof. by intros s. Qed.

Lemma keeps_get : keeps f get.
Proof. by intros s. Qed.

Lemma keeps_bind {A C} (m : M A) (k : A -> M C) :
  keeps f m -> (forall a, keeps f (k a)) -> keeps f (bind m k).
Proof.
  intros Hm Hk s. unfold bind. specialize (Hm s).
  destruct (m s) as [[a|e] s']; simpl in *; [|done].
  by rewrite Hk.
Qed.

Lemma keeps_try_catch {A} (body : M A) (handler : JSError -> M A) :
  keeps f body -> (forall e, keeps f (handler e)) -> keeps f (try_catch body handler).
Proof.
  intros Hm Hk s. unfold try_catch. specialize (Hm s).
  destruct (body s) as [[a|e] s']; simpl in *; [done|].
  by rewrite Hk.
Qed.

Lemma keeps_modify (g : State -> State) :
  (forall s, f (g s) = f s) -> keeps f (modify g).
Proof. intros H s. apply H. Qed.
End keeps.

(** Decomposes a statement into its primitive updates, which are checked by
    computation on the state record. *)
Ltac keeps_prim :=
  solve [ let s := fresh "s" in
          intros s; destruct s as [? [?|] [?|] ? ?];
          cbv [emit set_windowStore set_mainWindow set_tray set_isQuitting
               on_mainWindow on_tray send modify bind get ret];
          unfold hasTray, traysCreated; cbn;
          rewrite ?List.filter_app, ?length_app; cbn; (reflexivity || lia) ].
Ltac keeps_step :=
  lazymatch goal with
  | |- keeps _ (ret _) => apply keeps_ret
  | |- keeps _ (throw _) => apply keeps_throw
  | |- keeps _ (lift _) => apply keeps_lift
  | |- keeps _ get => apply keeps_get
  | |- keeps _ (bind _ _) => apply keeps_bind; [|intros ?]
  | |- keeps _ (try_catch _ _) => apply keeps_try_catch; [|intros ?]
  | |- keeps _ (emit _) => keeps_prim
  | |- keeps _ (set_windowStore _) => keeps_prim
  | |- keeps _ (set_mainWindow _) => keeps_prim
  | |- keeps _ (set_tray _) => keeps_prim
  | |- keeps _ (set_isQuitting _) => keeps_prim
  | |- keeps _ (on_mainWindow _) => keeps_prim
  | |- keeps _ (on_tray _) => keeps_prim
  | |- keeps _ (send _ _) => keeps_prim
  | |- keeps _ (match _ with _ => _ end) => case_match
  end.
Ltac keeps_tac := repeat keeps_step.

Lemma updateTrayMenu_keeps_windowStore env : keeps windowStore (updateTrayMenu env).
Proof. unfold updateTrayMenu, readRecentApps. keeps_tac. Qed.
Lemma updateTrayMenu_keeps_isQuitting env : keeps isQuitting (updateTrayMenu env).
Proof. unfold updateTrayMenu, readRecentApps. keeps_tac. Qed.
Lemma updateTrayMenu_keeps_mainWindow env : keeps mainWindow (updateTrayMenu env).
Proof. unfold updateTrayMenu, readRecentApps. keeps_tac. Qed.
Lemma updateTrayMenu_keeps_hasTray env : keeps hasTray (updateTrayMenu env).
Proof. unfold updateTrayMenu, readRecentApps. keeps_tac. Qed.
Lemma updateTrayMenu_keeps_traysCreated env : keeps traysCreated (updateTrayMenu env).
Proof. unfold updateTrayMenu, readRecentApps. keeps_tac. Qed.

Lemma createTray_keeps_windowStore env : keeps windowStore (createTray env).
Proof. unfold createTray. keeps_tac; apply updateTrayMenu_keeps_windowStore. Qed.
Lemma createTray_keeps_isQuitting env : keeps isQuitting (createTray env).
Proof. unfold createTray. keeps_tac; apply updateTrayMenu_keeps_isQuitting. Qed.

Lemma click_keeps_windowStore a : keeps windowStore (click a).
Proof. unfold click. keeps_tac. Qed.
Lemma click_keeps_traysCreated a : keeps traysCreated (click a).
Proof. unfold click. keeps_tac. Qed.
Lemma click_keeps_hasTray a : keeps hasTray (click a).
Proof. unfold click. keeps_tac. Qed.

(** ** The tray menu *)

#[local] Arguments truthy : simpl never.

Lemma getProp_name app : isNull app = false -> getProp app "name" = Ret (nameOf app).
Proof. by destruct app. Qed.

Lemma mapO_recentItem apps :
  forallb (fun app => negb (isNull app)) apps = true ->
  mapO recentItem apps = Ret (map entryItem apps).
Proof.
  induction apps as [|app apps IH]; simpl; [done|].
  intros [Hn Hrest]%andb_prop. apply negb_true_iff in Hn.
  unfold recentItem at 1. rewrite (getProp_name _ Hn), (IH Hrest). done.
Qed.

Lemma isEntry_not_null apps :
  forallb isEntry apps = true -> forallb (fun app => negb (isNull app)) apps = true.
Proof.
  induction apps as [|app apps IH]; simpl; [done|].
  intros [He Hrest]%andb_prop. rewrite IH by done. by destruct app.
Qed.

Lemma isEntry_usable apps :
  forallb isEntry apps = true -> forallb isUsable apps = true.
Proof.
  induction apps as [|app apps IH]; simpl; [done|].
  intros [He Hrest]%andb_prop. rewrite IH by done. rewrite andb_true_r.
  destruct app as [| | | | |fields]; try done.
  unfold isUsable. simpl in *. by destruct (assoc "name" fields) as [[]|].
Qed.

Lemma isUsable_not_null apps :
  forallb isUsable apps = true -> forallb (fun app => negb (isNull app)) apps = true.
Proof.
  induction apps as [|app apps IH]; simpl; [done|].
  intros [[Hn _]%andb_prop Hrest]%andb_prop. by rewrite Hn, IH.
Qed.

Lemma isUsable_valid apps :
  forallb isUsable apps = true -> forallb itemValid (map entryItem apps) = true.
Proof.
  induction apps as [|app apps IH]; simpl; [done|].
  intros [[_ Hl]%andb_prop Hrest]%andb_prop. rewrite IH by done. rewrite andb_true_r.
  by destruct (nameOf app) as [[]|].
Qed.

(** The fixed entries of the template have string labels: the template is
    taken when the Recent Apps entries are. *)
Lemma buildFromTemplate_valid m :
  forallb itemValid m = true -> buildFromTemplate (trayTemplate m) = Ret (trayTemplate m).
Proof.
  intros Hm. unfold buildFromTemplate.
  assert (forallb itemValid (trayTemplate m) = true) as ->; [|done].
  unfold trayTemplate. simpl. rewrite !andb_true_r. by destruct m.
Qed.

Lemma buildFromTemplate_Ret template menu :
  buildFromTemplate template = Ret menu -> menu = template.
Proof. unfold buildFromTemplate. destruct (forallb _ _); congruence. Qed.

Lemma contextMenuOf_Ret cfg menu :
  contextMenuOf cfg = Ret menu ->
  exists m, recentAppsMenu_of (recentAppsRead cfg) = Ret m /\ menu = trayTemplate m.
Proof.
  unfold contextMenuOf. destruct (recentAppsMenu_of _) as [m|e]; [|done].
  intros ->%buildFromTemplate_Ret. eauto.
Qed.

Lemma contextMenuOf_valid cfg m :
  recentAppsMenu_of (recentAppsRead cfg) = Ret m -> forallb itemValid m = true ->
  contextMenuOf cfg = Ret (trayTemplate m).
Proof. intros Hm Hv. unfold contextMenuOf. rewrite Hm. by apply buildFromTemplate_valid. Qed.

Lemma contextMenuOf_listShaped cfg :
  listShaped cfg = true ->
  exists m, recentAppsMenu_of (recentAppsRead cfg) = Ret m /\
            contextMenuOf cfg = Ret (trayTemplate m) /\
            (configuredApps cfg = None -> m = []).
Proof.
  intros Hshape.
  assert (exists m, recentAppsMenu_of (recentAppsRead cfg) = Ret m /\
                    forallb itemValid m = true /\
                    (configuredApps cfg = None -> m = [])) as (m & Hm & Hv & Hnone).
  { unfold listShaped, recentAppsRead in *.
    destruct (configuredApps cfg) as [[| | | |items|]|]; try done.
    - exists (map entryItem (take 10 items)). split; [|split; [|done]].
      + by apply mapO_recentItem, isUsable_not_null.
      + by apply isUsable_valid.
    - by exists []. }
  exists m. split; [done|]. split; [by apply contextMenuOf_valid | done].
Qed.

Lemma forallb_take {A} (p : A -> bool) n l :
  forallb p l = true -> forallb p (take n l) = true.
Proof.
  revert n. induction l as [|a l IH]; intros [|n]; simpl; try done.
  intros [-> Hl]%andb_prop. simpl. by apply IH.
Qed.

(** [updateTrayMenu] on a state with a tray, in one equation. *)
Lemma updateTrayMenu_result env s t :
  tray s = Some t ->
  updateTrayMenu env s =
  match contextMenuOf (configFile env) with
  | Ret menu =>
      (Ret tt,
       {| windowStore := windowStore s; mainWindow := mainWindow s;
          tray := Some (setContextMenu menu t);
          isQuitting := isQuitting s;
          trace := trace s ++ logged (configFile env) |})
  | Throw e =>
      (Throw e,
       {| windowStore := windowStore s; mainWindow := mainWindow s;
          tray := Some t; isQuitting := isQuitting s;
          trace := trace s ++ logged (configFile env) |})
  end.
Proof.
  intros Ht. destruct s as [st w tr q tc]; simpl in Ht; subst tr.
  unfold updateTrayMenu, contextMenuOf, recentAppsRead, logged, readFailure, configuredApps.
  unfold bind, get, try_catch, readRecentApps, lift, ret, throw; simpl.
  assert (forall a,
    match recentAppsMenu_of a with
    | Ret m =>
        match buildFromTemplate (trayTemplate m) with
        | Ret menu =>
            on_tray (setContextMenu menu)
              {| windowStore := st; mainWindow := w; tray := Some t;
                 isQuitting := q; trace := tc |}
        | Throw e =>
            (Throw e, {| windowStore := st; mainWindow := w; tray := Some t;
                         isQuitting := q; trace := tc |})
        end
    | Throw e =>
        (Throw e, {| windowStore := st; mainWindow := w; tray := Some t;
                     isQuitting := q; trace := tc |})
    end =
    match
      match recentAppsMenu_of a with
      | Ret m => buildFromTemplate (trayTemplate m)
      | Throw e => Throw e
      end
    with
    | Ret menu =>
        (Ret tt, {| windowStore := st; mainWindow := w;
                    tray := Some (setContextMenu menu t);
                    isQuitting := q; trace := tc |})
    | Throw e =>
        (Throw e, {| windowStore := st; mainWindow := w; tray := Some t;
                     isQuitting := q; trace := tc |})
    end) as Hbuild.
  { intros a. destruct (recentAppsMenu_of a) as [m|e]; [|done].
    by destruct (buildFromTemplate (trayTemplate m)). }
  destruct (configFile env) as [|e|e|config]; simpl; rewrite ?app_nil_r; try done.
  unfold bind. destruct (getProp config "recentApps") as [[a|]|e]; simpl;
    rewrite ?app_nil_r; try done.
  destruct (truthy (Some a)); simpl; [apply Hbuild | done].
Qed.

Lemma updateTrayMenu_no_tray env s : tray s = None -> updateTrayMenu env s = (Ret tt, s).
Proof. intros Ht. unfold updateTrayMenu, bind, get. by rewrite Ht. Qed.

Lemma recentAppsSubmenu_set s t m :
  tray s = Some (setContextMenu (trayTemplate m) t) ->
  recentAppsSubmenu s =
  Some (if (0 <? length m)%nat then m else [noRecentApps]).
Proof. intros Ht. unfold recentAppsSubmenu. rewrite Ht. reflexivity. Qed.

(** [createTray], in one equation. *)
Lemma createTray_result env s :
  createTray env s =
  match contextMenuOf (configFile env) with
  | Ret menu =>
      (Ret tt,
       {| windowStore := windowStore s; mainWindow := mainWindow s;
          tray := Some {| icon := trayImage env; contextMenu := Some menu;
                          clickHandler := true; toolTip := Some "WinBoat" |};
          isQuitting := isQuitting s;
          trace := trace s ++ [NewTray (trayImage env)] ++ logged (configFile env) |})
  | Throw e =>
      (Throw e,
       {| windowStore := windowStore s; mainWindow := mainWindow s;
          tray := Some {| icon := trayImage env; contextMenu := None;
                          clickHandler := false; toolTip := None |};
          isQuitting := isQuitting s;
          trace := trace s ++ [NewTray (trayImage env)] ++ logged (configFile env) |})
  end.
Proof.
  unfold createTray. unfold bind at 1 2. simpl. unfold bind at 1.
  erewrite updateTrayMenu_result by reflexivity. simpl.
  replace (Resized 16 16 _) with (trayImage env).
  2:{ unfold trayImage, iconPathOf, pngPath, svgPath. by destruct (existsSync env _). }
  destruct (contextMenuOf _); simpl; rewrite <- ?app_assoc; done.
Qed.

(** C10: when the tray exists and the config file is missing, cannot be
    read or parsed, or has an empty [recentApps] list, [updateTrayMenu]
    (called directly, or by the [update-tray] message) sets a menu whose
    Recent Apps submenu is the single disabled entry "No recent apps"; the
    same holds for the menu made when [init-tray] creates the tray. *)
Theorem no_recent_apps_placeholder env s :
  configFile env = Missing \/
  (exists e, configFile env = Unreadable e) \/
  (exists e, configFile env = Unparseable e) \/
  (exists fields, configFile env = Parsed (JObj fields) /\
                  assoc "recentApps" fields = Some (JArr [])) ->
  (forall t, tray s = Some t ->
     (updateTrayMenu env s).1 = Ret tt /\
     recentAppsSubmenu (updateTrayMenu env s).2
       = Some [Item (Some (JStr "No recent apps")) false None] /\
     recentAppsSubmenu (step s (IpcUpdateTray env))
       = Some [Item (Some (JStr "No recent apps")) false None]) /\
  (tray s = None ->
     recentAppsSubmenu (step s (IpcInitTray env))
       = Some [Item (Some (JStr "No recent apps")) false None]).
Proof.
  intros Hcfg.
  assert (contextMenuOf (configFile env) = Ret (trayTemplate [])) as Hm.
  { apply contextMenuOf_valid; [|done].
    destruct Hcfg as [->|[[e ->]|[[e ->]|(fields & -> & Hf)]]]; try done.
    unfold recentAppsRead, configuredApps. simpl. by rewrite Hf. }
  split.
  - intros t Ht. unfold step. simpl.
    rewrite (updateTrayMenu_result env s t Ht), Hm. done.
  - intros Ht. unfold step. simpl. unfold bind at 1. simpl. rewrite Ht.
    rewrite createTray_result, Hm. done.
Qed.

(** C2 (as amended): for a config whose JSON object has a non-empty
    [recentApps] list of [{name}] entries (objects with a string [name]),
    the Recent Apps submenu has one
    enabled entry for each of the first min(10, length) entries, in order,
    labelled with the entry's [name]; so it has at most ten entries. *)
Theorem recent_apps_submenu_first_ten env s t fields apps :
  tray s = Some t ->
  configFile env = Parsed (JObj fields) ->
  assoc "recentApps" fields = Some (JArr apps) ->
  forallb isEntry apps = true ->
  apps <> [] ->
  exists sub,
    (updateTrayMenu env s).1 = Ret tt /\
    recentAppsSubmenu (updateTrayMenu env s).2 = Some sub /\
    sub = map entryItem (take 10 apps) /\
    map itemLabel sub = map nameOf (take 10 apps) /\
    length sub = Nat.min 10 (length apps) /\
    (length sub <= 10)%nat.
Proof.
  intros Ht Hcfg Hf He Hne.
  assert (contextMenuOf (configFile env)
          = Ret (trayTemplate (map entryItem (take 10 apps)))) as Hm.
  { apply contextMenuOf_valid.
    - rewrite Hcfg. unfold recentAppsRead, configuredApps. simpl. rewrite Hf. simpl.
      apply mapO_recentItem, forallb_take, isEntry_not_null, He.
    - apply isUsable_valid, forallb_take, isEntry_usable, He. }
  exists (map entryItem (take 10 apps)).
  rewrite (updateTrayMenu_result env s t Ht), Hm. simpl.
  assert (length (map entryItem (take 10 apps)) = Nat.min 10 (length apps)) as Hlen
    by (by rewrite length_map, length_take).
  repeat split; try done.
  - erewrite recentAppsSubmenu_set by reflexivity.
    rewrite Hlen. destruct apps; [done|]. reflexivity.
  - rewrite map_map. reflexivity.
  - rewrite Hlen. lia.
Qed.

Lemma readFailure_no_apps cfg e :
  readFailure cfg = Some e -> configuredApps cfg = None.
Proof.
  unfold readFailure, configuredApps. destruct cfg as [| | |config]; try done.
  by destruct (getProp config "recentApps").
Qed.

(** C5 (as amended): with a tray, whenever the value read for [recentApps]
    is missing, falsy, or an array whose first ten entries are not [null]
    and have a string [name] or none, [updateTrayMenu] propagates no error
    and sets a complete menu on the tray; a failure to read or parse the
    file (or to read the property of a [null] config) is caught and logged
    once and the list is then empty. *)
Theorem updateTrayMenu_catches_read_failure env s t :
  tray s = Some t ->
  listShaped (configFile env) = true ->
  exists m,
    updateTrayMenu env s =
    (Ret tt,
     {| windowStore := windowStore s; mainWindow := mainWindow s;
        tray := Some (setContextMenu (trayTemplate m) t);
        isQuitting := isQuitting s;
        trace := trace s ++ logged (configFile env) |}) /\
    length (trayTemplate m) = 11%nat /\
    (forall e, readFailure (configFile env) = Some e ->
       logged (configFile env) = [ConsoleError "Failed to read config for tray" e] /\
       recentAppsRead (configFile env) = JArr [] /\ m = []) /\
    (configFile env = Missing -> logged (configFile env) = [] /\ m = []).
Proof.
  intros Ht Hshape.
  destruct (contextMenuOf_listShaped _ Hshape) as (m & _ & Hm & Hnone).
  exists m. rewrite (updateTrayMenu_result env s t Ht), Hm.
  split; [done|]. split; [done|]. split.
  - intros e He. pose proof (readFailure_no_apps _ _ He) as Hc.
    unfold logged, recentAppsRead. rewrite He, Hc. auto.
  - intros HM. unfold logged. rewrite HM in *. auto.
Qed.

(** C3 (as amended): [createTray] shows no dialog and does not exit.  It
    loads the icon from the PNG path, or from the SVG path when the PNG
    file is absent, and makes the tray from whatever image that gives
    (an empty one when no icon file is present); the only calls it adds
    to the trace are the construction of the tray and what
    [updateTrayMenu] logs. *)
Theorem createTray_never_shows_dialog_or_exits env s :
  let s' := (createTray env s).2 in
  exists t,
    tray s' = Some t /\
    icon t = Resized 16 16
               (createFromPath env
                  (if existsSync env (pngPath env) then pngPath env else svgPath env)) /\
    trace s' = trace s ++ [NewTray (icon t)] ++ logged (configFile env) /\
    existsb isDialog ([NewTray (icon t)] ++ logged (configFile env)) = false /\
    existsb isExit ([NewTray (icon t)] ++ logged (configFile env)) = false.
Proof.
  simpl. rewrite createTray_result.
  assert (existsb isDialog (logged (configFile env)) = false /\
          existsb isExit (logged (configFile env)) = false) as [Hd He].
  { unfold logged. by destruct (readFailure _). }
  destruct (contextMenuOf _); simpl; eexists; simpl; repeat split; done.
Qed.

(** ** The event loop *)

Ltac createWindow_cases env :=
  let Hl := fresh "Hlock" in
  destruct (requestSingleInstanceLock env) eqn:Hl;
  [rewrite createWindow_result by done | rewrite createWindow_no_lock by done].

Lemma createWindow_keeps_windowStore env : keeps windowStore (createWindow env).
Proof. intros s. by createWindow_cases env. Qed.
Lemma createWindow_keeps_isQuitting env : keeps isQuitting (createWindow env).
Proof. intros s. by createWindow_cases env. Qed.
Lemma createWindow_keeps_hasTray env : keeps hasTray (createWindow env).
Proof. intros s. by createWindow_cases env. Qed.
Lemma createWindow_keeps_traysCreated env : keeps traysCreated (createWindow env).
Proof.
  intros s. createWindow_cases env; unfold traysCreated; simpl;
    rewrite !List.filter_app, !length_app; simpl; lia.
Qed.

Lemma run_snoc s evs ev : run s (evs ++ [ev]) = step (run s evs) ev.
Proof. unfold run. by rewrite foldl_app. Qed.

Lemma run_app s evs evs' : run s (evs ++ evs') = run (run s evs) evs'.
Proof. unfold run. by rewrite foldl_app. Qed.

Lemma handle_keeps_windowStore ev :
  (forall b, ev <> Close b) -> keeps windowStore (handle ev).
Proof.
  intros Hev. destruct ev; try (by edestruct Hev);
    unfold handle; keeps_tac;
    auto using createWindow_keeps_windowStore, updateTrayMenu_keeps_windowStore,
               createTray_keeps_windowStore, click_keeps_windowStore.
Qed.

(** Only the close listener writes the store, and only while quitting. *)
Lemma step_windowStore s ev :
  windowStore (step s ev) <> windowStore s ->
  exists b, ev = Close b /\ isQuitting s = true.
Proof.
  intros Hne.
  assert ((exists b, ev = Close b) \/ (forall b, ev <> Close b)) as [[b ->]|Hev]
    by (destruct ev; eauto; by right).
  - exists b. split; [done|].
    destruct (isQuitting s) eqn:Hq; [done|]. exfalso. apply Hne.
    unfold step. simpl. unfold bind at 1. simpl.
    destruct (mainWindow s) as [w|] eqn:Hw; [|done].
    destruct (destroyed w); [done|].
    unfold bind. rewrite on_close_not_quitting by done. done.
  - exfalso. apply Hne. by apply handle_keeps_windowStore.
Qed.

Lemma click_keeps_isQuitting a : a <> Quit -> keeps isQuitting (click a).
Proof. intros Ha. destruct a; try done; unfold click; keeps_tac. Qed.

Lemma handle_keeps_isQuitting ev :
  (forall i j, ev <> MenuClick i j) -> keeps isQuitting (handle ev).
Proof.
  intros Hev. destruct ev; try (by edestruct Hev);
    unfold handle, on_close; keeps_tac;
    auto using createWindow_keeps_isQuitting, updateTrayMenu_keeps_isQuitting,
               createTray_keeps_isQuitting.
Qed.

(** [isQuitting] becomes true only through the click on Quit. *)
Lemma step_isQuitting s ev :
  isQuitting s = false -> isQuitting (step s ev) = true ->
  exists i j, ev = MenuClick i j /\ picksQuit s i j.
Proof.
  intros Hq Hq'. destruct ev as [env|env|env| |b|msg|env|env| |i j];
    try (unfold step in Hq'; rewrite handle_keeps_isQuitting in Hq' by done; congruence).
  exists i, j. split; [done|].
  revert Hq'. unfold step, picksQuit. simpl. unfold bind at 1. simpl.
  destruct (tray s) as [[ic [menu|] ch tip]|] eqn:Ht; simpl; try congruence.
  destruct (pick menu i j) as [[l [] [a|]| |]|] eqn:Hp; simpl; try congruence.
  assert (a = Quit \/ a <> Quit) as [->|Ha] by (destruct a; auto).
  - intros _. eexists _, menu, l. eauto.
  - rewrite click_keeps_isQuitting by done. simpl. congruence.
Qed.

Lemma run_isQuitting s evs :
  isQuitting s = false -> isQuitting (run s evs) = true ->
  exists pre i j post,
    evs = pre ++ MenuClick i j :: post /\ picksQuit (run s pre) i j.
Proof.
  intros Hq. induction evs as [|ev evs IH] using rev_ind; [simpl; congruence|].
  rewrite run_snoc. intros Hq'.
  destruct (isQuitting (run s evs)) eqn:Hprev.
  - destruct IH as (pre & i & j & post & -> & Hpick); [done|].
    exists pre, i, j, (post ++ [ev]). by rewrite <- app_assoc.
  - destruct (step_isQuitting _ _ Hprev Hq') as (i & j & -> & Hpick).
    by exists evs, i, j, [].
Qed.

(** C8: a close of the main window while [isQuitting] is false is
    prevented, the window is hidden and not destroyed, and the settings
    store is left as it was; along every run from start-up, an event that
    changes the store is a close that happens while [isQuitting] is true,
    that is after a click on the Quit entry of the tray menu. *)
Theorem close_while_not_quitting_hides_and_keeps_geometry :
  (forall s b w,
     mainWindow s = Some w -> destroyed w = false -> isQuitting s = false ->
     let s' := step s (Close b) in
     (on_close b s).1 = Ret true /\
     trace s' = trace s ++ [PreventDefault] /\
     mainWindow s' = Some (hide w) /\
     visible (hide w) = false /\ destroyed (hide w) = false /\
     windowStore s' = windowStore s /\
     windowStore s' !! "dimensions" = windowStore s !! "dimensions" /\
     windowStore s' !! "position" = windowStore s !! "position" /\
     isQuitting s' = false) /\
  (forall store evs ev,
     windowStore (run (initial store) (evs ++ [ev]))
       <> windowStore (run (initial store) evs) ->
     exists b,
       ev = Close b /\
       isQuitting (run (initial store) evs) = true /\
       exists pre i j post,
         evs = pre ++ MenuClick i j :: post /\
         picksQuit (run (initial store) pre) i j).
Proof.
  split.
  - intros s b w Hw Hd Hq. unfold step.
    rewrite (on_close_not_quitting s b Hq), (handle_Close_not_quitting s b w) by done.
    simpl. rewrite Hd. done.
  - intros store evs ev. rewrite run_snoc.
    intros (b & -> & Hq)%step_windowStore.
    exists b. repeat split; [done|]. by apply run_isQuitting.
Qed.

(** ** The tray *)

Lemma handle_IpcInitTray_tray s env t :
  tray s = Some t -> handle (IpcInitTray env) s = (Ret tt, s).
Proof. intros Ht. simpl. unfold bind, get. by rewrite Ht. Qed.

Lemma handle_IpcInitTray_no_tray s env :
  tray s = None -> handle (IpcInitTray env) s = createTray env s.
Proof. intros Ht. simpl. unfold bind, get. by rewrite Ht. Qed.

Lemma createTray_hasTray env s : hasTray (createTray env s).2 = true.
Proof. rewrite createTray_result. by destruct (contextMenuOf _). Qed.

Lemma logged_no_tray cfg : List.filter is_NewTray (logged cfg) = [].
Proof. unfold logged. by destruct (readFailure cfg). Qed.

Lemma createTray_traysCreated env s :
  traysCreated (createTray env s).2 = S (traysCreated s).
Proof.
  rewrite createTray_result. unfold traysCreated.
  destruct (contextMenuOf _); cbn [snd trace];
    rewrite !List.filter_app, logged_no_tray, !length_app; simpl; lia.
Qed.

Lemma handle_keeps_tray_count ev :
  (forall env, ev <> IpcInitTray env) ->
  keeps hasTray (handle ev) /\ keeps traysCreated (handle ev).
Proof.
  intros Hev. destruct ev; try (by edestruct Hev);
    split; unfold handle, on_close; keeps_tac;
    auto using createWindow_keeps_hasTray, createWindow_keeps_traysCreated,
               updateTrayMenu_keeps_hasTray, updateTrayMenu_keeps_traysCreated,
               click_keeps_hasTray, click_keeps_traysCreated.
Qed.

Lemma step_trayInv s ev : trayInv s -> trayInv (step s ev).
Proof.
  unfold trayInv, step. intros Hinv.
  assert ((exists env, ev = IpcInitTray env) \/ (forall env, ev <> IpcInitTray env))
    as [[env ->]|Hev] by (destruct ev; eauto; by right).
  - unfold hasTray in Hinv. destruct (tray s) as [t|] eqn:Ht.
    + rewrite (handle_IpcInitTray_tray s env t Ht). simpl.
      unfold hasTray. by rewrite Ht.
    + rewrite (handle_IpcInitTray_no_tray s env Ht).
      rewrite createTray_hasTray, createTray_traysCreated. lia.
  - destruct (handle_keeps_tray_count ev Hev) as [H1 H2]. by rewrite H1, H2.
Qed.

Lemma run_trayInv s evs : trayInv s -> trayInv (run s evs).
Proof.
  revert s. induction evs as [|ev evs IH]; intros s Hs; [done|].
  simpl. apply IH. by apply step_trayInv.
Qed.

(** C9: at most one tray is ever created.  [init-tray] runs [createTray]
    exactly when the [tray] variable is null, after which the variable is
    set, so every later [init-tray] leaves the state as it is; the
    invariant that the number of constructed trays is that held by the
    variable (hence at most one) is kept by every handler. *)
Theorem at_most_one_tray :
  (forall store evs, (traysCreated (run (initial store) evs) <= 1)%nat) /\
  (forall s env t, tray s = Some t -> handle (IpcInitTray env) s = (Ret tt, s)) /\
  (forall s env, tray s = None ->
     handle (IpcInitTray env) s = createTray env s /\
     traysCreated (step s (IpcInitTray env)) = S (traysCreated s)) /\
  (forall s env, hasTray (step s (IpcInitTray env)) = true) /\
  (forall store env envs,
     run (initial store) (IpcInitTray env :: map IpcInitTray envs)
       = step (initial store) (IpcInitTray env)) /\
  (forall s ev, trayInv s -> trayInv (step s ev)).
Proof.
  split; [|split; [|split; [|split; [|split]]]].
  - intros store evs.
    pose proof (run_trayInv (initial store) evs eq_refl) as Hinv.
    unfold trayInv in Hinv. destruct (hasTray _); lia.
  - apply handle_IpcInitTray_tray.
  - intros s env Ht. split; [by apply handle_IpcInitTray_no_tray|].
    unfold step. rewrite handle_IpcInitTray_no_tray by done.
    apply createTray_traysCreated.
  - intros s env. unfold step. destruct (tray s) as [t|] eqn:Ht.
    + rewrite (handle_IpcInitTray_tray s env t Ht). simpl.
      unfold hasTray. by rewrite Ht.
    + rewrite handle_IpcInitTray_no_tray by done. apply createTray_hasTray.
  - intros store env envs. simpl.
    assert (hasTray (step (initial store) (IpcInitTray env)) = true) as Hs.
    { unfold step. rewrite handle_IpcInitTray_no_tray by done. apply createTray_hasTray. }
    revert Hs. generalize (step (initial store) (IpcInitTray env)) as s.
    induction envs as [|env' envs IH]; intros s Hs; [done|].
    simpl. unfold hasTray in Hs. destruct (tray s) as [t|] eqn:Ht; [|done].
    assert (step s (IpcInitTray env') = s) as ->
      by (unfold step; by rewrite (handle_IpcInitTray_tray s env' t Ht)).
    apply IH. unfold hasTray. by rewrite Ht.
  - apply step_trayInv.
Qed.

(** ** Response headers *)

(** C7: the callback of [onHeadersReceived] is given the original response
    headers with [Content-Security-Policy] set to the fixed list of five
    directives; every header under another name is as it was (present with
    the same values, or absent). *)
Theorem csp_header_added_others_unchanged
    (responseHeaders : option (gmap string (list string))) :
  onHeadersReceived responseHeaders !! "Content-Security-Policy"
    = Some CONTENT_SECURITY_POLICY /\
  length CONTENT_SECURITY_POLICY = 5%nat /\
  (forall name, name <> "Content-Security-Policy" ->
     onHeadersReceived responseHeaders !! name = default ∅ responseHeaders !! name) /\
  dom (onHeadersReceived responseHeaders)
    = {["Content-Security-Policy"]} ∪ dom (default ∅ responseHeaders).
Proof.
  unfold onHeadersReceived. repeat split.
  - apply lookup_insert_eq.
  - intros name Hne. by rewrite lookup_insert_ne.
  - apply dom_insert_L.
Qed.

(** ** Evaluations at concrete inputs *)



(** C6: with nothing saved in the settings store the four reads give
    [undefined], so the window is constructed without [width], [height],
    [x] and [y]; the defaults 1280, 800, 0 and 0 are declared on the
    properties of two schema entries that have no default of their own. *)
Theorem fresh_store_window_has_no_geometry env :
  requestSingleInstanceLock env = true ->
  let w := createdWindow env ∅ in
  mainWindow (createWindow env (initial ∅)).2 = Some w /\
  width (options w) = None /\ height (options w) = None /\
  x (options w) = None /\ y (options w) = None /\
  minWidth (options w) = 1280 /\ minHeight (options w) = 800 /\
  map (fun e => (e.1, sch_properties e.2, sch_default e.2)) windowStore_schema
    = [ ("dimensions", [("width", 1280); ("height", 800)], None);
        ("position", [("x", 0); ("y", 0)], None) ].
Proof.
  intros Hlock. simpl. rewrite createWindow_result by done. simpl.
  rewrite !Store_get_empty. done.
Qed.

Lemma fresh_store_window_has_no_geometry_witness :
  requestSingleInstanceLock (sampleEnv Missing true) = true /\
  (options <$> mainWindow (createWindow (sampleEnv Missing true) (initial ∅)).2)
    = Some {| minWidth := 1280; minHeight := 800;
              width := None; height := None; x := None; y := None;
              transparent := false; frame := false;
              nodeIntegration := true; contextIsolation := false |}.
Proof.
  split; [reflexivity|].
  rewrite (proj1 (fresh_store_window_has_no_geometry (sampleEnv Missing true) eq_refl)).
  reflexivity.
Defined.

(** C1, as first stated, fails: a close before Quit leaves the saved
    geometry in the store, whatever bounds the window has. *)
Lemma close_before_quit_keeps_old_geometry :
  (exists w, mainWindow startedState = Some w /\ destroyed w = false) /\
  storedGeometry (windowStore (step startedState (Close movedBounds)))
    = Some {| rect_x := 0; rect_y := 0; rect_width := 1280; rect_height := 800 |} /\
  storedGeometry (windowStore (step startedState (Close movedBounds)))
    <> Some movedBounds.
Proof.
  assert (storedGeometry (windowStore (step startedState (Close movedBounds)))
          = Some {| rect_x := 0; rect_y := 0; rect_width := 1280; rect_height := 800 |})
    as Heq by (vm_compute; reflexivity).
  split; [eexists; split; reflexivity|].
  split; [exact Heq|]. rewrite Heq. discriminate.
Qed.


Lemma geometry_read_at_startup_written_at_quitting_close_witness :
  (requestSingleInstanceLock (sampleEnv Missing true) = true /\
   mainWindow quittingState = Some (createdWindow (sampleEnv Missing true) savedStore) /\
   destroyed (createdWindow (sampleEnv Missing true) savedStore) = false /\
   isQuitting quittingState = true) /\
  createdGeometry
    (options (createdWindow (sampleEnv Missing true) (windowStore (initial savedStore))))
    = Some {| rect_x := 0; rect_y := 0; rect_width := 1280; rect_height := 800 |} /\
  storedGeometry (windowStore (step quittingState (Close movedBounds))) = Some movedBounds.
Proof.
  split; [repeat split; reflexivity|]. split.
  - apply (proj1 geometry_read_at_startup_written_at_quitting_close
             (sampleEnv Missing true) (initial savedStore) eq_refl).
    reflexivity.
  - exact (proj2 (proj2 geometry_read_at_startup_written_at_quitting_close
                    quittingState movedBounds
                    (createdWindow (sampleEnv Missing true) savedStore)
                    eq_refl eq_refl eq_refl)).
Defined.

(** C2, as first stated, fails on the empty list: the submenu then has one
    entry, the placeholder, and not the first zero entries of the list. *)
Lemma empty_list_submenu_is_placeholder :
  tray trayState = Some sampleTray /\
  recentAppsSubmenu (updateTrayMenu (sampleEnv emptyListConfig true) trayState).2
    = Some [noRecentApps] /\
  recentAppsSubmenu (updateTrayMenu (sampleEnv emptyListConfig true) trayState).2
    <> Some (map entryItem (take 10 [])) /\
  length [noRecentApps] <> Nat.min 10 (length (@nil JSON)).
Proof. repeat split; try reflexivity; vm_compute; discriminate. Qed.

Lemma recent_apps_submenu_first_ten_witness :
  exists sub,
    recentAppsSubmenu (updateTrayMenu (sampleEnv twoAppsConfig true) trayState).2 = Some sub /\
    map itemLabel sub = [Some (JStr "Notepad"); Some (JStr "Paint")].
Proof.
  destruct (recent_apps_submenu_first_ten
              (sampleEnv twoAppsConfig true) trayState sampleTray
              [("recentApps",
                JArr [JObj [("name", JStr "Notepad")]; JObj [("name", JStr "Paint")]])]
              [JObj [("name", JStr "Notepad")]; JObj [("name", JStr "Paint")]]
              eq_refl eq_refl eq_refl eq_refl ltac:(discriminate))
    as (sub & _ & Hsub & _ & Hlabels & _).
  exists sub. split; [exact Hsub | exact Hlabels].
Defined.

(** C3, as first stated, fails: with no icon file at either path
    [createTray] makes the tray from an empty image; its only call is the
    construction of the tray. *)
Lemma no_icon_no_dialog_no_exit :
  existsSync (sampleEnv Missing true) (pngPath (sampleEnv Missing true)) = false /\
  existsSync (sampleEnv Missing true) (svgPath (sampleEnv Missing true)) = false /\
  (createTray (sampleEnv Missing true) (initial ∅)).1 = Ret tt /\
  trace (createTray (sampleEnv Missing true) (initial ∅)).2
    = [NewTray (Resized 16 16 EmptyImage)] /\
  existsb isDialog (trace (createTray (sampleEnv Missing true) (initial ∅)).2) = false /\
  existsb isExit (trace (createTray (sampleEnv Missing true) (initial ∅)).2) = false /\
  hasTray (createTray (sampleEnv Missing true) (initial ∅)).2 = true.
Proof. repeat split; reflexivity. Qed.

(** C5, as first stated, fails: on the well-formed config
    [{"recentApps": true}] nothing is caught, [slice] is not a function of
    the value, and the error leaves [updateTrayMenu] before a menu is built:
    the tray keeps its old menu, and a tray being created gets none. *)
Lemma non_list_recentApps_throws :
  tray trayState = Some sampleTray /\
  updateTrayMenu (sampleEnv notAListConfig true) trayState
    = (Throw (TypeError "recentApps.slice is not a function"), trayState) /\
  (createTray (sampleEnv notAListConfig true) (initial ∅)).1
    = Throw (TypeError "recentApps.slice is not a function") /\
  (tray (createTray (sampleEnv notAListConfig true) (initial ∅)).2 ≫= contextMenu) = None.
Proof. repeat split; reflexivity. Qed.

Lemma updateTrayMenu_catches_read_failure_witness :
  (tray trayState = Some sampleTray /\
   listShaped (Unparseable (SyntaxError "Unexpected end of JSON input")) = true) /\
  exists m,
    (updateTrayMenu
       (sampleEnv (Unparseable (SyntaxError "Unexpected end of JSON input")) true)
       trayState).1 = Ret tt /\
    tray (updateTrayMenu
            (sampleEnv (Unparseable (SyntaxError "Unexpected end of JSON input")) true)
            trayState).2
      = Some (setContextMenu (trayTemplate m) sampleTray) /\
    m = [].
Proof.
  split; [split; reflexivity|].
  destruct (updateTrayMenu_catches_read_failure
              (sampleEnv (Unparseable (SyntaxError "Unexpected end of JSON input")) true)
              trayState sampleTray eq_refl eq_refl)
    as (m & Heq & _ & Hfail & _).
  exists m. rewrite Heq. repeat split.
  exact (proj2 (proj2 (Hfail _ eq_refl))).
Defined.

Lemma no_recent_apps_placeholder_witness :
  recentAppsSubmenu (step trayState (IpcUpdateTray (sampleEnv emptyListConfig true)))
    = Some [Item (Some (JStr "No recent apps")) false None] /\
  recentAppsSubmenu (step (initial ∅) (IpcInitTray (sampleEnv Missing true)))
    = Some [Item (Some (JStr "No recent apps")) false None].
Proof.
  split.
  - refine (proj2 (proj2 (proj1 (no_recent_apps_placeholder
                                   (sampleEnv emptyListConfig true) trayState _)
                                sampleTray eq_refl))).
    right; right; right. exists [("recentApps", JArr [])]. split; reflexivity.
  - refine (proj2 (no_recent_apps_placeholder (sampleEnv Missing true) (initial ∅) _)
              eq_refl).
    left. reflexivity.
Defined.

Lemma close_while_not_quitting_hides_and_keeps_geometry_witness :
  (windowStore (step startedState (Close movedBounds)) = windowStore startedState /\
   mainWindow (step startedState (Close movedBounds))
     = Some (hide (createdWindow (sampleEnv Missing true) savedStore))) /\
  (windowStore (run (initial savedStore) (quitRun ++ [Close movedBounds]))
     <> windowStore (run (initial savedStore) quitRun) /\
   isQuitting (run (initial savedStore) quitRun) = true).
Proof.
  pose proof (proj1 close_while_not_quitting_hides_and_keeps_geometry
                startedState movedBounds
                (createdWindow (sampleEnv Missing true) savedStore)
                eq_refl eq_refl eq_refl) as H1.
  assert (windowStore (run (initial savedStore) (quitRun ++ [Close movedBounds]))
          <> windowStore (run (initial savedStore) quitRun)) as Hne.
  { intros Heq.
    apply (f_equal (fun d => Store_get d "dimensions" "width")) in Heq.
    vm_compute in Heq. discriminate. }
  destruct (proj2 close_while_not_quitting_hides_and_keeps_geometry
              savedStore quitRun (Close movedBounds) Hne) as (b & _ & Hq & _).
  split; [split; apply H1 | split; [exact Hne | exact Hq]].
Defined.

Lemma at_most_one_tray_witness :
  tray trayState = Some sampleTray /\
  handle (IpcInitTray (sampleEnv twoAppsConfig true)) trayState = (Ret tt, trayState) /\
  traysCreated (step (initial ∅) (IpcInitTray (sampleEnv Missing true))) = 1%nat /\
  trayInv (step trayState (IpcUpdateTray (sampleEnv notAListConfig true))).
Proof.
  destruct at_most_one_tray as (_ & Hnoop & Hcreate & _ & _ & Hinv).
  split; [reflexivity|]. split; [|split].
  - exact (Hnoop trayState (sampleEnv twoAppsConfig true) sampleTray eq_refl).
  - exact (proj2 (Hcreate (initial ∅) (sampleEnv Missing true) eq_refl)).
  - apply Hinv. reflexivity.
Defined.

Lemma csp_header_added_others_unchanged_witness :
  "Content-Type" <> "Content-Security-Policy" /\
  onHeadersReceived (Some sampleHeaders) !! "Content-Type" = Some ["text/html"] /\
  onHeadersReceived (Some sampleHeaders) !! "Content-Security-Policy"
    = Some CONTENT_SECURITY_POLICY.
Proof.
  destruct (csp_header_added_others_unchanged (Some sampleHeaders)) as (Hcsp & _ & Hother & _).
  split; [discriminate|]. split; [|exact Hcsp].
  rewrite (Hother "Content-Type") by discriminate. reflexivity.
Defined.

(** ** Further properties of the tray menu *)

(** X1: without a tray [updateTrayMenu] returns at once: whatever the
    config file holds, nothing is read, logged or thrown and the state is
    as before; an [update-tray] message before [init-tray] is a no-op. *)
Theorem updateTrayMenu_without_tray_does_nothing env s :
  tray s = None ->
  updateTrayMenu env s = (Ret tt, s) /\ step s (IpcUpdateTray env) = s.
Proof.
  intros Ht. unfold step. simpl. by rewrite (updateTrayMenu_no_tray env s Ht).
Qed.

Lemma updateTrayMenu_without_tray_does_nothing_witness :
  tray startedState = None /\
  step startedState (IpcUpdateTray (sampleEnv notAListConfig true)) = startedState.
Proof.
  split; [reflexivity|].
  apply (updateTrayMenu_without_tray_does_nothing
           (sampleEnv notAListConfig true) startedState).
  reflexivity.
Defined.

Lemma mapO_recentItem_null apps :
  forallb (fun app => negb (isNull app)) apps = false ->
  exists e, mapO recentItem apps = Throw e.
Proof.
  induction apps as [|app apps IH]; simpl; [done|].
  destruct (isNull app) eqn:Hn; simpl.
  - intros _. destruct app; try done. eauto.
  - intros H. destruct (IH H) as [e He].
    unfold recentItem at 1. rewrite (getProp_name _ Hn), He. eauto.
Qed.

Lemma mapO_length {A B} (f : A -> Outcome B) l bs :
  mapO f l = Ret bs -> length bs = length l.
Proof.
  revert bs. induction l as [|a l IH]; simpl; intros bs.
  - by intros [= <-].
  - destruct (f a); [|done]. destruct (mapO f l); [|done].
    intros [= <-]. simpl. by rewrite (IH _ eq_refl).
Qed.

Lemma buildFromTemplate_invalid m :
  forallb itemValid m = false ->
  exists e, buildFromTemplate (trayTemplate m) = Throw e.
Proof.
  intros Hm. unfold buildFromTemplate.
  assert (forallb itemValid (trayTemplate m) = false) as ->; [|eauto].
  unfold trayTemplate. simpl. destruct m as [|item m]; [done|].
  simpl in *. by rewrite Hm.
Qed.

Lemma refused_invalid apps :
  forallb (fun app => negb (isNull app)) apps = true ->
  existsb (fun app => isNull app || negb (validLabel (nameOf app))) apps = true ->
  forallb itemValid (map entryItem apps) = false.
Proof.
  induction apps as [|app apps IH]; simpl; [done|].
  intros [Hn Hrest]%andb_prop. apply negb_true_iff in Hn. rewrite Hn. simpl.
  destruct (validLabel (nameOf app)); simpl; [|done]. by apply IH.
Qed.

Lemma contextMenuOf_refused cfg :
  refused cfg = true ->
  (exists e, contextMenuOf cfg = Throw e) /\ readFailure cfg = None.
Proof.
  unfold refused, contextMenuOf, recentAppsRead. intros Href. split.
  - destruct (configuredApps cfg) as [[| | | |items|]|]; simpl; try done; eauto.
    destruct (forallb (fun app => negb (isNull app)) (take 10 items)) eqn:Hnn.
    + rewrite (mapO_recentItem _ Hnn).
      by apply buildFromTemplate_invalid, refused_invalid.
    + destruct (mapO_recentItem_null _ Hnn) as [e ->]. eauto.
  - destruct (readFailure cfg) as [e|] eqn:He; [|done].
    by rewrite (readFailure_no_apps _ _ He) in Href.
Qed.

(** X2: with a tray, [updateTrayMenu] throws, after a read that logged
    nothing and before any menu is set, whenever the value read for
    [recentApps] is truthy and no array, or is an array with a [null] among
    its first ten entries, or with an entry among them whose [name] is a
    number, a boolean, an object or an array; the state is as before. *)
Theorem updateTrayMenu_throws_on_refused_config env s t :
  tray s = Some t ->
  refused (configFile env) = true ->
  exists e, updateTrayMenu env s = (Throw e, s).
Proof.
  intros Ht Href. rewrite (updateTrayMenu_result env s t Ht).
  destruct (contextMenuOf_refused _ Href) as [[e ->] Hlog].
  exists e. unfold logged. rewrite Hlog, app_nil_r.
  destruct s; simpl in *; by subst.
Qed.

Lemma updateTrayMenu_throws_on_refused_config_witness :
  tray trayState = Some sampleTray /\
  refused nullEntryConfig = true /\ refused badNameConfig = true /\
  (exists e, updateTrayMenu (sampleEnv nullEntryConfig true) trayState
             = (Throw e, trayState)) /\
  (exists e, updateTrayMenu (sampleEnv badNameConfig true) trayState
             = (Throw e, trayState)).
Proof.
  split; [reflexivity|]. split; [reflexivity|]. split; [reflexivity|]. split.
  - exact (updateTrayMenu_throws_on_refused_config
             (sampleEnv nullEntryConfig true) trayState sampleTray eq_refl eq_refl).
  - exact (updateTrayMenu_throws_on_refused_config
             (sampleEnv badNameConfig true) trayState sampleTray eq_refl eq_refl).
Defined.

(** X3: [updateTrayMenu] changes nothing but the tray's context menu and
    the log: the store, the window, [isQuitting] and the tray's icon, click
    listener and tooltip stay, and when it throws the tray keeps the menu
    it had. *)
Theorem updateTrayMenu_touches_only_the_menu env s t :
  tray s = Some t ->
  let s' := (updateTrayMenu env s).2 in
  windowStore s' = windowStore s /\
  mainWindow s' = mainWindow s /\
  isQuitting s' = isQuitting s /\
  trace s' = trace s ++ logged (configFile env) /\
  trayFixture s' = trayFixture s /\
  ((updateTrayMenu env s).1 <> Ret tt -> tray s' = Some t).
Proof.
  intros Ht. simpl. rewrite (updateTrayMenu_result env s t Ht).
  unfold trayFixture. rewrite Ht.
  destruct (contextMenuOf _); simpl; repeat split; done.
Qed.

Lemma updateTrayMenu_touches_only_the_menu_witness :
  tray twoAppsState = tray (updateTrayMenu (sampleEnv notAListConfig true) twoAppsState).2.
Proof.
  assert (exists t, tray twoAppsState = Some t) as [t Ht] by (eexists; reflexivity).
  destruct (updateTrayMenu_touches_only_the_menu
              (sampleEnv notAListConfig true) twoAppsState t Ht)
    as (_ & _ & _ & _ & _ & Hkeep).
  rewrite Hkeep; [exact Ht | discriminate].
Defined.

(** X4: every menu [updateTrayMenu] sets has the same eleven top-level
    entries (the disabled WinBoat header, Open Apps, Open Configuration,
    the Recent Apps submenu, Run Container, Pause Container and Quit, with
    four separators) and a Recent Apps submenu of at least one and at most
    ten entries, whatever the config file holds. *)
Theorem tray_menu_shape env s t :
  tray s = Some t ->
  (updateTrayMenu env s).1 = Ret tt ->
  exists sub,
    (tray (updateTrayMenu env s).2 ≫= contextMenu)
      = Some [ Item (Some (JStr "WinBoat")) false None;
               Separator;
               Item (Some (JStr "Open Apps")) true (Some (Navigate "/apps"));
               Item (Some (JStr "Open Configuration")) true (Some (Navigate "/config"));
               Separator;
               Submenu "Recent Apps" sub;
               Separator;
               Item (Some (JStr "Run Container")) true (Some (ContainerAction "start"));
               Item (Some (JStr "Pause Container")) true (Some (ContainerAction "pause"));
               Separator;
               Item (Some (JStr "Quit")) true (Some Quit) ] /\
    recentAppsSubmenu (updateTrayMenu env s).2 = Some sub /\
    (1 <= length sub <= 10)%nat.
Proof.
  intros Ht. rewrite (updateTrayMenu_result env s t Ht).
  destruct (contextMenuOf _) as [menu|e] eqn:Hmenu; simpl; [intros _|done].
  destruct (contextMenuOf_Ret _ _ Hmenu) as (m & Hm & ->).
  eexists. repeat split; try reflexivity.
  - destruct m; simpl; lia.
  - assert (length m <= 10)%nat as Hlen.
    { unfold recentAppsMenu_of in Hm.
      destruct (recentAppsRead _) as [| | | |items|]; try done.
      apply mapO_length in Hm. rewrite Hm, length_take. lia. }
    destruct m; simpl in *; lia.
Qed.

Lemma tray_menu_shape_witness :
  exists sub,
    recentAppsSubmenu (updateTrayMenu (sampleEnv elevenAppsConfig true) trayState).2
      = Some sub /\
    (1 <= length sub <= 10)%nat.
Proof.
  destruct (tray_menu_shape (sampleEnv elevenAppsConfig true) trayState sampleTray
              eq_refl eq_refl)
    as (sub & _ & Hsub & Hlen).
  exists sub. split; [exact Hsub | exact Hlen].
Defined.

(** X5: the menu depends on the latest config only: after two
    [update-tray] messages of which the second is read without error the
    tray is the one a single update with the second config gives, whether
    or not the first update threw. *)
Theorem update_tray_overwrites env1 env2 s t :
  tray s = Some t ->
  listShaped (configFile env2) = true ->
  tray (run s [IpcUpdateTray env1; IpcUpdateTray env2])
    = tray (step s (IpcUpdateTray env2)).
Proof.
  intros Ht Hshape.
  destruct (contextMenuOf_listShaped _ Hshape) as (m2 & _ & Hm2 & _).
  unfold run, step. simpl.
  rewrite (updateTrayMenu_result env1 s t Ht), (updateTrayMenu_result env2 s t Ht), Hm2.
  destruct (contextMenuOf (configFile env1)); simpl;
    erewrite updateTrayMenu_result by reflexivity; by rewrite Hm2.
Qed.

Lemma update_tray_overwrites_witness :
  tray (run trayState [IpcUpdateTray (sampleEnv notAListConfig true);
                       IpcUpdateTray (sampleEnv twoAppsConfig true)])
    = tray twoAppsState.
Proof.
  exact (update_tray_overwrites (sampleEnv notAListConfig true)
           (sampleEnv twoAppsConfig true) trayState sampleTray eq_refl eq_refl).
Defined.

(** ** Clicks on the tray and its menu *)

Lemma handle_MenuClick s t menu i j :
  tray s = Some t -> contextMenu t = Some menu ->
  handle (MenuClick i j) s =
  match pick menu i j with
  | Some (Item _ true (Some a)) => click a s
  | _ => (Ret tt, s)
  end.
Proof.
  intros Ht Hm. simpl. unfold bind at 1. simpl. rewrite Ht.
  destruct t as [ic cm ch tip]. simpl in Hm. subst cm.
  by destruct (pick menu i j) as [[l [] [a|]| |]|].
Qed.

Lemma click_Quit s :
  click Quit s =
  (Ret tt, {| windowStore := windowStore s; mainWindow := mainWindow s; tray := tray s;
              isQuitting := true; trace := trace s ++ [AppQuit] |}).
Proof. by destruct s. Qed.

Lemma click_with_window a s w :
  mainWindow s = Some w ->
  click a s =
  (Ret tt,
   match a with
   | LaunchApp name =>
       {| windowStore := windowStore s; mainWindow := Some (show w); tray := tray s;
          isQuitting := isQuitting s;
          trace := trace s ++ [Send "launch-app-by-name" name] |}
   | Navigate route =>
       {| windowStore := windowStore s; mainWindow := Some (show w); tray := tray s;
          isQuitting := isQuitting s;
          trace := trace s ++ [Send "navigate" (Some (JStr route))] |}
   | ContainerAction action =>
       {| windowStore := windowStore s; mainWindow := Some w; tray := tray s;
          isQuitting := isQuitting s;
          trace := trace s ++ [Send "container-action" (Some (JStr action))] |}
   | Quit =>
       {| windowStore := windowStore s; mainWindow := Some w; tray := tray s;
          isQuitting := true; trace := trace s ++ [AppQuit] |}
   end).
Proof. intros Hw. destruct s; simpl in Hw; subst. by destruct a. Qed.

Lemma pick_trayTemplate m :
  pick (trayTemplate m) OPEN_APPS None
    = Some (Item (Some (JStr "Open Apps")) true (Some (Navigate "/apps"))) /\
  pick (trayTemplate m) OPEN_CONFIGURATION None
    = Some (Item (Some (JStr "Open Configuration")) true (Some (Navigate "/config"))) /\
  pick (trayTemplate m) RUN_CONTAINER None
    = Some (Item (Some (JStr "Run Container")) true (Some (ContainerAction "start"))) /\
  pick (trayTemplate m) PAUSE_CONTAINER None
    = Some (Item (Some (JStr "Pause Container")) true (Some (ContainerAction "pause"))) /\
  pick (trayTemplate m) QUIT None
    = Some (Item (Some (JStr "Quit")) true (Some Quit)).
Proof. repeat split; reflexivity. Qed.

(** X6: choosing Quit in the tray menu and the close that follows save the
    geometry and end the window: after the click on the last menu entry
    [isQuitting] is set and [app.quit()] was called, and the next close of
    the open main window is not prevented, stores the bounds it had and
    destroys it. *)
Theorem quit_then_close_saves_and_destroys s t m w b :
  tray s = Some t -> contextMenu t = Some (trayTemplate m) ->
  mainWindow s = Some w -> destroyed w = false ->
  let s1 := step s (MenuClick QUIT None) in
  let s2 := step s1 (Close b) in
  isQuitting s1 = true /\
  trace s1 = trace s ++ [AppQuit] /\
  storedGeometry (windowStore s2) = Some b /\
  mainWindow s2 = Some (destroy w) /\
  trace s2 = trace s1.
Proof.
  intros Ht Hm Hw Hd. cbv zeta. unfold step.
  rewrite (handle_MenuClick s t _ QUIT None Ht Hm).
  rewrite (proj2 (proj2 (proj2 (proj2 (pick_trayTemplate m))))), click_Quit. cbn [snd].
  erewrite handle_Close_quitting by (simpl; eauto). simpl.
  repeat split; try done. apply storedGeometry_savedOnClose.
Qed.

Lemma quit_then_close_saves_and_destroys_witness :
  storedGeometry
    (windowStore (step (step twoAppsState (MenuClick QUIT None)) (Close movedBounds)))
    = Some movedBounds.
Proof.
  assert (exists t m, tray twoAppsState = Some t /\ contextMenu t = Some (trayTemplate m))
    as (t & m & Ht & Hm) by (eexists _, _; split; reflexivity).
  exact (proj1 (proj2 (proj2
           (quit_then_close_saves_and_destroys twoAppsState t m
              (createdWindow (sampleEnv Missing true) savedStore) movedBounds
              Ht Hm eq_refl eq_refl)))).
Defined.

Lemma handle_Activate env s :
  handle (Activate env) s = if noWindows s then createWindow env s else (Ret tt, s).
Proof. simpl. unfold bind, get. by destruct (noWindows s). Qed.

(** X7: the geometry written at the quitting close is the geometry the
    next window is created with, in a process started (with the lock) on
    the store as that close left it, and equally when [activate]
    re-creates the window in the same process. *)
Theorem saved_geometry_is_restored s w b env :
  mainWindow s = Some w -> destroyed w = false -> isQuitting s = true ->
  requestSingleInstanceLock env = true ->
  let d := windowStore (step s (Close b)) in
  mainWindow (step (initial d) (Ready env)) = Some (createdWindow env d) /\
  mainWindow (run s [Close b; Activate env]) = Some (createdWindow env d) /\
  createdGeometry (options (createdWindow env d)) = Some b.
Proof.
  intros Hw Hd Hq Hlock. cbv zeta.
  change (run s [Close b; Activate env]) with (step (step s (Close b)) (Activate env)).
  unfold step.
  rewrite (handle_Close_quitting s b w Hw Hd Hq). cbn [snd windowStore].
  split; [|split].
  - change (handle (Ready env)) with (createWindow env).
    by rewrite createWindow_result.
  - rewrite handle_Activate. unfold noWindows. cbn [mainWindow destroy destroyed].
    by rewrite createWindow_result.
  - apply createdGeometry_stored, storedGeometry_savedOnClose.
Qed.

Lemma saved_geometry_is_restored_witness :
  createdGeometry
    (options (createdWindow (sampleEnv Missing true)
                (windowStore (step quittingState (Close movedBounds)))))
    = Some movedBounds.
Proof.
  exact (proj2 (proj2
           (saved_geometry_is_restored quittingState
              (createdWindow (sampleEnv Missing true) savedStore) movedBounds
              (sampleEnv Missing true) eq_refl eq_refl eq_refl eq_refl))).
Defined.

Lemma handle_TrayClick s t w :
  tray s = Some t -> clickHandler t = true -> mainWindow s = Some w ->
  handle TrayClick s =
  (Ret tt, {| windowStore := windowStore s; mainWindow := Some (show w); tray := tray s;
              isQuitting := isQuitting s; trace := trace s ++ [Focus] |}).
Proof.
  intros Ht Hc Hw. destruct s; simpl in *; subst.
  unfold bind; simpl. rewrite Hc. reflexivity.
Qed.

(** X8: a window closed to the tray comes back: after a close that was
    prevented the window is hidden, and a click on the tray icon (once
    [createTray] has installed the listener) or on Open Apps shows it
    again; the store is the same throughout. *)
Theorem hidden_window_is_shown_again s t m w b :
  tray s = Some t -> clickHandler t = true -> contextMenu t = Some (trayTemplate m) ->
  mainWindow s = Some w -> destroyed w = false -> isQuitting s = false ->
  let s1 := step s (Close b) in
  (visible <$> mainWindow s1) = Some false /\
  mainWindow (step s1 TrayClick) = Some (show (hide w)) /\
  trace (step s1 TrayClick) = trace s ++ [PreventDefault; Focus] /\
  mainWindow (step s1 (MenuClick OPEN_APPS None)) = Some (show (hide w)) /\
  trace (step s1 (MenuClick OPEN_APPS None))
    = trace s ++ [PreventDefault; Send "navigate" (Some (JStr "/apps"))] /\
  windowStore (step s1 TrayClick) = windowStore s /\
  windowStore (step s1 (MenuClick OPEN_APPS None)) = windowStore s.
Proof.
  intros Ht Hc Hm Hw Hd Hq. cbv zeta. unfold step.
  rewrite (handle_Close_not_quitting s b w Hw Hd Hq). cbn [snd].
  erewrite handle_MenuClick by (simpl; eauto).
  rewrite (proj1 (pick_trayTemplate m)).
  erewrite click_with_window by reflexivity.
  erewrite handle_TrayClick by (simpl; eauto).
  simpl. rewrite <- !app_assoc. done.
Qed.

Lemma hidden_window_is_shown_again_witness :
  (visible <$> mainWindow (step twoAppsState (Close movedBounds))) = Some false /\
  (visible <$> mainWindow (run twoAppsState [Close movedBounds; TrayClick])) = Some true.
Proof.
  assert (exists t m, tray twoAppsState = Some t /\ clickHandler t = true /\
                      contextMenu t = Some (trayTemplate m))
    as (t & m & Ht & Hc & Hm) by (eexists _, _; repeat split; reflexivity).
  destruct (hidden_window_is_shown_again twoAppsState t m
              (createdWindow (sampleEnv Missing true) savedStore) movedBounds
              Ht Hc Hm eq_refl eq_refl eq_refl) as (Hhid & Hshown & _).
  split; [exact Hhid|].
  change (run twoAppsState [Close movedBounds; TrayClick])
    with (step (step twoAppsState (Close movedBounds)) TrayClick).
  rewrite Hshown. reflexivity.
Defined.

(** X9: the four action entries send fixed messages to the window: Open
    Configuration navigates to [/config] and shows the window, while Run
    Container and Pause Container send [start] and [pause] and leave the
    window as it is, hidden or not; none of them touches the store, the
    tray or [isQuitting]. *)
Theorem action_entries_send_fixed_messages s t m w :
  tray s = Some t -> contextMenu t = Some (trayTemplate m) -> mainWindow s = Some w ->
  step s (MenuClick OPEN_CONFIGURATION None)
    = {| windowStore := windowStore s; mainWindow := Some (show w); tray := tray s;
         isQuitting := isQuitting s;
         trace := trace s ++ [Send "navigate" (Some (JStr "/config"))] |} /\
  step s (MenuClick RUN_CONTAINER None)
    = {| windowStore := windowStore s; mainWindow := Some w; tray := tray s;
         isQuitting := isQuitting s;
         trace := trace s ++ [Send "container-action" (Some (JStr "start"))] |} /\
  step s (MenuClick PAUSE_CONTAINER None)
    = {| windowStore := windowStore s; mainWindow := Some w; tray := tray s;
         isQuitting := isQuitting s;
         trace := trace s ++ [Send "container-action" (Some (JStr "pause"))] |}.
Proof.
  intros Ht Hm Hw. unfold step.
  rewrite !(handle_MenuClick s t _ _ None Ht Hm).
  destruct (pick_trayTemplate m) as (_ & -> & -> & -> & _).
  by rewrite !(click_with_window _ s w Hw).
Qed.

Lemma action_entries_send_fixed_messages_witness :
  trace (step twoAppsState (MenuClick RUN_CONTAINER None))
    = trace twoAppsState ++ [Send "container-action" (Some (JStr "start"))].
Proof.
  assert (exists t m, tray twoAppsState = Some t /\ contextMenu t = Some (trayTemplate m))
    as (t & m & Ht & Hm) by (eexists _, _; split; reflexivity).
  destruct (action_entries_send_fixed_messages twoAppsState t m
              (createdWindow (sampleEnv Missing true) savedStore) Ht Hm eq_refl)
    as (_ & Hrun & _).
  rewrite Hrun. reflexivity.
Defined.

Lemma pick_recent m j item :
  m !! j = Some item -> pick (trayTemplate m) RECENT_APPS (Some j) = Some item.
Proof.
  intros Hj. unfold pick, trayTemplate, RECENT_APPS. simpl.
  destruct m; [done|]. exact Hj.
Qed.

(** X10: after an update from a config whose [recentApps] is a list of
    entries with a string [name] or none, a
    click on the [j]-th entry of the Recent Apps submenu (j below ten)
    sends [launch-app-by-name] with the [name] of the [j]-th app of the
    list and shows the window. *)
Theorem recent_entry_launches_its_app env s t fields apps j app w :
  tray s = Some t -> mainWindow s = Some w ->
  configFile env = Parsed (JObj fields) ->
  assoc "recentApps" fields = Some (JArr apps) ->
  forallb isUsable (take 10 apps) = true ->
  (j < 10)%nat -> apps !! j = Some app ->
  let s1 := step s (IpcUpdateTray env) in
  let s2 := step s1 (MenuClick RECENT_APPS (Some j)) in
  trace s2 = trace s ++ [Send "launch-app-by-name" (nameOf app)] /\
  mainWindow s2 = Some (show w) /\
  windowStore s2 = windowStore s /\ isQuitting s2 = isQuitting s.
Proof.
  intros Ht Hw Hcfg Hf Hnn Hj Happ. cbv zeta.
  assert (step s (IpcUpdateTray env)
          = {| windowStore := windowStore s; mainWindow := mainWindow s;
               tray := Some (setContextMenu
                               (trayTemplate (map entryItem (take 10 apps))) t);
               isQuitting := isQuitting s; trace := trace s |}) as ->.
  { unfold step. change (handle (IpcUpdateTray env)) with (updateTrayMenu env).
    rewrite (updateTrayMenu_result env s t Ht).
    assert (contextMenuOf (configFile env)
            = Ret (trayTemplate (map entryItem (take 10 apps)))) as ->.
    { apply contextMenuOf_valid; [|by apply isUsable_valid].
      rewrite Hcfg. unfold recentAppsRead, configuredApps. simpl. rewrite Hf. simpl.
      by apply mapO_recentItem, isUsable_not_null. }
    assert (logged (configFile env) = []) as ->.
    { rewrite Hcfg. unfold logged, readFailure. by simpl. }
    cbn [snd]. by rewrite app_nil_r. }
  unfold step. erewrite handle_MenuClick by (simpl; reflexivity).
  rewrite (pick_recent _ j (entryItem app)).
  2:{ rewrite list_lookup_fmap, lookup_take_lt by done. by rewrite Happ. }
  unfold entryItem. erewrite click_with_window by (simpl; exact Hw).
  done.
Qed.

Lemma recent_entry_launches_its_app_witness :
  trace (step twoAppsState (MenuClick RECENT_APPS (Some 1%nat)))
    = trace trayState ++ [Send "launch-app-by-name" (Some (JStr "Paint"))].
Proof.
  exact (proj1 (recent_entry_launches_its_app
                  (sampleEnv twoAppsConfig true) trayState sampleTray
                  [("recentApps",
                    JArr [JObj [("name", JStr "Notepad")]; JObj [("name", JStr "Paint")]])]
                  [JObj [("name", JStr "Notepad")]; JObj [("name", JStr "Paint")]]
                  1 (JObj [("name", JStr "Paint")])
                  (createdWindow (sampleEnv Missing true) savedStore)
                  eq_refl eq_refl eq_refl eq_refl eq_refl ltac:(lia) eq_refl)).
Defined.

(** X11: clicks that hit no action change nothing: a click while the tray
    has no menu, a click on the header, a separator or the Recent Apps
    entry itself, a click past the end of the menu, and a click on the
    "No recent apps" placeholder or past the end of the submenu. *)
Theorem inert_clicks_change_nothing s :
  (forall i j, (tray s ≫= contextMenu) = None -> step s (MenuClick i j) = s) /\
  (forall t m,
     tray s = Some t -> contextMenu t = Some (trayTemplate m) ->
     (forall i, In i [0; 1; 4; RECENT_APPS; 6; 9]%nat -> step s (MenuClick i None) = s) /\
     (forall i j, (11 <= i)%nat -> step s (MenuClick i j) = s) /\
     (forall j, (length m <= j)%nat -> step s (MenuClick RECENT_APPS (Some j)) = s) /\
     (forall j, m = [] -> step s (MenuClick RECENT_APPS (Some j)) = s)).
Proof.
  split.
  - intros i j Hnone. unfold step. simpl. unfold bind at 1. simpl.
    destruct (tray s) as [[ic [menu|] ch tip]|]; done.
  - intros t m Ht Hm. unfold step. repeat split.
    + intros i Hi. rewrite (handle_MenuClick s t _ i None Ht Hm).
      simpl in Hi. by destruct Hi as [<-|[<-|[<-|[<-|[<-|[<-|[]]]]]]].
    + intros i j Hi. rewrite (handle_MenuClick s t _ i j Ht Hm).
      unfold pick. rewrite (lookup_ge_None_2 (trayTemplate m) i) by (simpl; lia). done.
    + intros j Hj. rewrite (handle_MenuClick s t _ _ _ Ht Hm).
      unfold pick, trayTemplate, RECENT_APPS. simpl.
      destruct m as [|item m]; simpl.
      * by destruct j as [|[|j]].
      * by rewrite (lookup_ge_None_2 (item :: m) j) by (simpl in *; lia).
    + intros j ->. rewrite (handle_MenuClick s t _ _ _ Ht Hm).
      by destruct j as [|[|j]].
Qed.

Lemma inert_clicks_change_nothing_witness :
  step startedState (MenuClick QUIT None) = startedState /\
  step trayState (MenuClick RECENT_APPS (Some 0%nat)) = trayState.
Proof.
  split.
  - exact (proj1 (inert_clicks_change_nothing startedState) QUIT None eq_refl).
  - exact (proj2 (proj2 (proj2
             (proj2 (inert_clicks_change_nothing trayState) sampleTray [] eq_refl eq_refl)))
             0%nat eq_refl).
Defined.

(** X12: while there is no window ([mainWindow] is null) the menu actions
    other than Quit send nothing, throw nothing and leave the state as it
    is. *)
Theorem actions_without_window_do_nothing a s :
  mainWindow s = None -> a <> Quit -> click a s = (Ret tt, s).
Proof.
  intros Hw Ha. destruct s; simpl in Hw; subst. by destruct a.
Qed.

Lemma actions_without_window_do_nothing_witness :
  click (Navigate "/apps") (initial savedStore) = (Ret tt, initial savedStore).
Proof.
  apply actions_without_window_do_nothing; [reflexivity | discriminate].
Defined.

(** ** Invariants of the event loop *)

Ltac obs_prim :=
  solve [ let s := fresh "s" in
          intros s; destruct s as [? [?|] [?|] ? ?];
          cbv [emit set_windowStore set_mainWindow set_tray set_isQuitting
               on_mainWindow on_tray send modify bind get ret];
          unfold alive, windowsCreated, alerts, trayFixture; cbn;
          rewrite ?List.filter_app, ?length_app; cbn; (reflexivity || lia) ].
Ltac obs_step :=
  lazymatch goal with
  | |- keeps _ (ret _) => apply keeps_ret
  | |- keeps _ (throw _) => apply keeps_throw
  | |- keeps _ (lift _) => apply keeps_lift
  | |- keeps _ get => apply keeps_get
  | |- keeps _ (bind _ _) => apply keeps_bind; [|intros ?]
  | |- keeps _ (try_catch _ _) => apply keeps_try_catch; [|intros ?]
  | |- keeps _ (emit _) => obs_prim
  | |- keeps _ (set_isQuitting _) => obs_prim
  | |- keeps _ (set_windowStore _) => obs_prim
  | |- keeps _ (on_mainWindow _) => obs_prim
  | |- keeps _ (on_tray _) => obs_prim
  | |- keeps _ (send _ _) => obs_prim
  | |- keeps _ (match _ with _ => _ end) => case_match
  end.
Ltac obs_tac := repeat obs_step.

Lemma updateTrayMenu_keeps_alive env : keeps alive (updateTrayMenu env).
Proof. unfold updateTrayMenu, readRecentApps. obs_tac. Qed.
Lemma updateTrayMenu_keeps_windowsCreated env : keeps windowsCreated (updateTrayMenu env).
Proof. unfold updateTrayMenu, readRecentApps. obs_tac. Qed.
Lemma updateTrayMenu_keeps_alerts env : keeps alerts (updateTrayMenu env).
Proof. unfold updateTrayMenu, readRecentApps. obs_tac. Qed.

Lemma createTray_keeps_alive env : keeps alive (createTray env).
Proof. intros s. rewrite createTray_result. by destruct (contextMenuOf _). Qed.
Lemma createTray_keeps_windowsCreated env : keeps windowsCreated (createTray env).
Proof.
  intros s. rewrite createTray_result. unfold windowsCreated.
  assert (List.filter isNewWindow (logged (configFile env)) = []) as Hl
    by (unfold logged; by destruct (readFailure _)).
  destruct (contextMenuOf _); cbn [snd trace];
    rewrite !List.filter_app, Hl, !length_app; simpl; lia.
Qed.
Lemma createTray_keeps_alerts env : keeps alerts (createTray env).
Proof.
  intros s. rewrite createTray_result. unfold alerts.
  assert (List.filter (fun e => isDialog e || isExit e) (logged (configFile env)) = [])
    as Hl by (unfold logged; by destruct (readFailure _)).
  destruct (contextMenuOf _); cbn [snd trace];
    rewrite !List.filter_app, Hl, !length_app; simpl; lia.
Qed.

Lemma step_isQuitting_stays s ev : isQuitting s = true -> isQuitting (step s ev) = true.
Proof.
  intros Hq.
  assert ((exists i j, ev = MenuClick i j) \/ (forall i j, ev <> MenuClick i j))
    as [(i & j & ->)|Hev] by (destruct ev; eauto; by right).
  - unfold step. simpl. unfold bind at 1. simpl.
    destruct (tray s) as [[ic [menu|] ch tip]|]; simpl; try done.
    destruct (pick menu i j) as [[l [] [a|]| |]|]; simpl; try done.
    assert (a = Quit \/ a <> Quit) as [->|Ha] by (destruct a; auto).
    + by rewrite click_Quit.
    + by rewrite click_keeps_isQuitting.
  - unfold step. by rewrite handle_keeps_isQuitting.
Qed.

Lemma run_isQuitting_stays s evs : isQuitting s = true -> isQuitting (run s evs) = true.
Proof.
  revert s. induction evs as [|ev evs IH]; intros s Hq; [done|].
  simpl. apply IH. by apply step_isQuitting_stays.
Qed.

(** X13: Quit cannot be undone: once [isQuitting] is true it stays true
    under every event, so from then on the close listener never prevents a
    close, and after a close no live main window is left. *)
Theorem quitting_is_never_reset s evs b :
  isQuitting s = true ->
  let s' := run s evs in
  isQuitting s' = true /\
  (on_close b s').1 = Ret false /\
  trace (step s' (Close b)) = trace s' /\
  alive (step s' (Close b)) = false.
Proof.
  intros Hq. simpl. pose proof (run_isQuitting_stays s evs Hq) as Hq'.
  destruct (run s evs) as [st [w|] tr q tc]; simpl in Hq'; subst q.
  - repeat split; unfold step, alive; simpl; unfold bind; simpl;
      destruct (destroyed w) eqn:Hd; simpl; try done. by rewrite Hd.
  - repeat split; done.
Qed.

Lemma quitting_is_never_reset_witness :
  isQuitting quittingState = true /\
  isQuitting (run quittingState
                [MenuClick OPEN_APPS None; IpcUpdateTray (sampleEnv notAListConfig true);
                 TrayClick]) = true.
Proof.
  split; [reflexivity|].
  exact (proj1 (quitting_is_never_reset quittingState
                  [MenuClick OPEN_APPS None; IpcUpdateTray (sampleEnv notAListConfig true);
                   TrayClick] movedBounds eq_refl)).
Defined.

Lemma alive_noWindows s : alive s = true -> noWindows s = false.
Proof.
  unfold alive, noWindows. destruct (mainWindow s) as [w|]; [|done].
  by destruct (destroyed w).
Qed.

Lemma step_alive s ev :
  alive s = true -> isQuitting s = false -> alive (step s ev) = true.
Proof.
  intros Ha Hq. unfold step.
  destruct ev as [env|env|env| |b|msg|env|env| |i j];
    try (lazymatch goal with |- alive (handle ?ev s).2 = _ =>
           rewrite ((ltac:(unfold handle, click; obs_tac;
                           auto using updateTrayMenu_keeps_alive, createTray_keeps_alive)
                     : keeps alive (handle ev)) s) end; exact Ha).
  - change (handle (Ready env)) with (createWindow env). by createWindow_cases env.
  - rewrite handle_Activate, (alive_noWindows s Ha). exact Ha.
  - unfold alive in Ha. destruct (mainWindow s) as [w|] eqn:Hw; [|done].
    apply negb_true_iff in Ha.
    rewrite (handle_Close_not_quitting s b w Hw Ha Hq). unfold alive. simpl. by rewrite Ha.
Qed.

Lemma step_windowsCreated s ev :
  alive s = true -> notReady ev = true -> windowsCreated (step s ev) = windowsCreated s.
Proof.
  intros Ha Hev. unfold step.
  destruct ev as [env|env|env| |b|msg|env|env| |i j]; try done;
    try (lazymatch goal with |- windowsCreated (handle ?ev s).2 = _ =>
           apply (ltac:(unfold handle, on_close, click; obs_tac;
                        auto using updateTrayMenu_keeps_windowsCreated,
                          createTray_keeps_windowsCreated)
                  : keeps windowsCreated (handle ev)) end).
  by rewrite handle_Activate, (alive_noWindows s Ha).
Qed.

(** X14: until Quit is chosen the app has exactly one main window and it
    is never destroyed: along every run after a start-up that acquired
    the single-instance lock, as long as [isQuitting] is still false, one
    [BrowserWindow] was constructed and it is alive (closes only hide it,
    [activate] makes no second one). *)
Theorem one_live_window_until_quit store env evs :
  requestSingleInstanceLock env = true ->
  forallb notReady evs = true ->
  isQuitting (run (initial store) (Ready env :: evs)) = false ->
  alive (run (initial store) (Ready env :: evs)) = true /\
  windowsCreated (run (initial store) (Ready env :: evs)) = 1%nat.
Proof.
  intros Hlock. induction evs as [|ev evs IH] using rev_ind; intros Hnr Hq.
  - unfold run, step. simpl foldl.
    change (handle (Ready env)) with (createWindow env).
    by rewrite createWindow_result.
  - rewrite forallb_app in Hnr. apply andb_prop in Hnr as [Hnr Hev].
    simpl in Hev. rewrite andb_true_r in Hev.
    rewrite app_comm_cons, run_snoc in *.
    destruct (isQuitting (run (initial store) (Ready env :: evs))) eqn:Hprev.
    { by rewrite step_isQuitting_stays in Hq. }
    destruct (IH Hnr eq_refl) as [Ha Hn].
    split; [by apply step_alive | by rewrite step_windowsCreated].
Qed.

Lemma one_live_window_until_quit_witness :
  windowsCreated
    (run (initial savedStore)
       (Ready (sampleEnv Missing true)
        :: [Close movedBounds; Activate (sampleEnv Missing true); Close movedBounds]))
    = 1%nat.
Proof.
  exact (proj2 (one_live_window_until_quit savedStore (sampleEnv Missing true)
                  [Close movedBounds; Activate (sampleEnv Missing true); Close movedBounds]
                  eq_refl eq_refl eq_refl)).
Defined.

Lemma step_alerts s ev : lockHeld ev = true -> alerts (step s ev) = alerts s.
Proof.
  intros Hev. unfold step.
  destruct ev as [env|env|env| |b|msg|env|env| |i j];
    try (lazymatch goal with |- alerts (handle ?ev s).2 = _ =>
           apply (ltac:(unfold handle, on_close, click; obs_tac;
                        auto using updateTrayMenu_keeps_alerts, createTray_keeps_alerts)
                  : keeps alerts (handle ev)) end).
  - change (handle (Ready env)) with (createWindow env).
    rewrite createWindow_result by done. unfold alerts. simpl.
    rewrite List.filter_app, length_app. simpl. lia.
  - rewrite handle_Activate. destruct (noWindows s); [|done].
    rewrite createWindow_result by done. unfold alerts. simpl.
    rewrite List.filter_app, length_app. simpl. lia.
Qed.

(** X15: the error dialog and [app.exit()] belong to the lost
    single-instance lock alone: along a run in which every [createWindow]
    acquires the lock, no handler ever shows a dialog or exits, whatever
    the config file, the icon files or the clicks. *)
Theorem no_dialog_no_exit_while_lock_held store evs :
  forallb lockHeld evs = true ->
  alerts (run (initial store) evs) = 0%nat /\
  existsb isDialog (trace (run (initial store) evs)) = false /\
  existsb isExit (trace (run (initial store) evs)) = false.
Proof.
  intros Hev.
  assert (alerts (run (initial store) evs) = 0%nat) as H0.
  { revert Hev. generalize (eq_refl : alerts (initial store) = 0%nat).
    generalize (initial store) as s.
    induction evs as [|ev evs IH]; intros s Hs Hev; [done|].
    simpl in Hev. apply andb_prop in Hev as [Hev Hrest].
    simpl. apply IH; [|done]. by rewrite step_alerts. }
  split; [done|]. unfold alerts in H0.
  generalize dependent (trace (run (initial store) evs)). intros tc.
  induction tc as [|e tc IH]; simpl; [done|].
  destruct e; simpl; try done; intros; by rewrite ?IH, ?orb_false_r.
Qed.

Lemma no_dialog_no_exit_while_lock_held_witness :
  existsb isDialog
    (trace (run (initial ∅)
              [Ready (sampleEnv Missing true); IpcInitTray (sampleEnv notAListConfig true);
               IpcUpdateTray (sampleEnv nullEntryConfig true); Close movedBounds]))
    = false.
Proof.
  exact (proj1 (proj2 (no_dialog_no_exit_while_lock_held ∅
           [Ready (sampleEnv Missing true); IpcInitTray (sampleEnv notAListConfig true);
            IpcUpdateTray (sampleEnv nullEntryConfig true); Close movedBounds]
           eq_refl))).
Defined.





(** ** Further properties of the response headers and of the store *)

(** X17: the policy a response ends up with is the app's own: whatever
    [Content-Security-Policy] the server sent is replaced, so two
    responses that differ in that header only give the same headers;
    applying the callback to its own result changes nothing; and a
    response without headers gets just the policy. *)
Theorem csp_is_the_apps_own :
  (forall h values,
     onHeadersReceived (Some (<["Content-Security-Policy" := values]> h))
       = onHeadersReceived (Some h)) /\
  (forall h1 h2 : gmap string (list string),
     (forall name, name <> "Content-Security-Policy" -> h1 !! name = h2 !! name) ->
     onHeadersReceived (Some h1) = onHeadersReceived (Some h2)) /\
  (forall h, onHeadersReceived (Some (onHeadersReceived h)) = onHeadersReceived h) /\
  onHeadersReceived None = {[ "Content-Security-Policy" := CONTENT_SECURITY_POLICY ]}.
Proof.
  unfold onHeadersReceived. simpl. repeat split.
  - intros h values. apply insert_insert_eq.
  - intros h1 h2 Hagree. apply map_eq. intros name.
    destruct (decide (name = "Content-Security-Policy")) as [->|Hne].
    + by rewrite !lookup_insert_eq.
    + rewrite !lookup_insert_ne by done. by apply Hagree.
  - intros h. apply insert_insert_eq.
Qed.

Lemma csp_is_the_apps_own_witness :
  onHeadersReceived (Some sampleHeaders)
    = onHeadersReceived (Some {[ "Content-Type" := ["text/html"] ]}).
Proof.
  apply (proj1 (proj2 csp_is_the_apps_own)).
  intros name Hne. unfold sampleHeaders.
  destruct (decide (name = "Content-Type")) as [->|Hct]; by simplify_map_eq.
Defined.

(** X18: the quitting close replaces the two geometry entries and nothing
    else: afterwards [dimensions] holds exactly the width and height of
    the bounds and [position] exactly their x and y, whatever these entries
    held before (no stale or extra property survives), and every other
    entry of the store is as it was. *)
Theorem quitting_close_replaces_both_entries s w b :
  mainWindow s = Some w -> destroyed w = false -> isQuitting s = true ->
  let d := windowStore (step s (Close b)) in
  d !! "dimensions" = Some {[ "width" := rect_width b; "height" := rect_height b ]} /\
  d !! "position" = Some {[ "x" := rect_x b; "y" := rect_y b ]} /\
  (forall key, key <> "dimensions" -> key <> "position" ->
     d !! key = windowStore s !! key).
Proof.
  intros Hw Hd Hq. cbv zeta. unfold step.
  rewrite (handle_Close_quitting s b w Hw Hd Hq). cbn [snd windowStore].
  unfold savedOnClose. repeat split.
  - rewrite Store_set_lookup, bool_decide_eq_false_2 by done.
    rewrite Store_set_lookup, bool_decide_eq_true_2 by done.
    simpl. by f_equal.
  - rewrite Store_set_lookup, bool_decide_eq_true_2 by done.
    simpl. by f_equal.
  - intros key Hd' Hp.
    rewrite !Store_set_lookup, !bool_decide_eq_false_2 by done.
    unfold validated. rewrite !bool_decide_eq_false_2 by done.
    by destruct (windowStore s !! key).
Qed.

Lemma quitting_close_replaces_both_entries_witness :
  windowStore (step quittingState (Close movedBounds)) !! "dimensions"
    = Some {[ "width" := 1400; "height" := 900 ]}.
Proof.
  exact (proj1 (quitting_close_replaces_both_entries quittingState
                  (createdWindow (sampleEnv Missing true) savedStore) movedBounds
                  eq_refl eq_refl eq_refl)).
Defined.

(** ** Further edge cases of the recent-apps list *)

(** X19: entries after the tenth are never looked at: appending anything,
    even [null] entries, to a list of ten or more apps gives the same
    outcome and the same state from [updateTrayMenu]. *)
Theorem entries_past_ten_are_ignored env1 env2 s apps more :
  (10 <= length apps)%nat ->
  configFile env1 = Parsed (JObj [("recentApps", JArr (apps ++ more))]) ->
  configFile env2 = Parsed (JObj [("recentApps", JArr apps)]) ->
  updateTrayMenu env1 s = updateTrayMenu env2 s.
Proof.
  intros Hlen H1 H2. destruct (tray s) as [t|] eqn:Ht.
  - rewrite (updateTrayMenu_result env1 s t Ht), (updateTrayMenu_result env2 s t Ht).
    assert (contextMenuOf (configFile env1) = contextMenuOf (configFile env2)) as ->.
    { rewrite H1, H2. unfold contextMenuOf, recentAppsRead. simpl.
      by rewrite take_app_le. }
    assert (logged (configFile env1) = logged (configFile env2)) as ->; [|done].
    by rewrite H1, H2.
  - by rewrite !updateTrayMenu_no_tray.
Qed.

Lemma entries_past_ten_are_ignored_witness :
  updateTrayMenu
    (sampleEnv (Parsed (JObj [("recentApps", JArr (elevenApps ++ [JNull]))])) true)
    trayState
  = updateTrayMenu (sampleEnv elevenAppsConfig true) trayState.
Proof.
  apply (entries_past_ten_are_ignored _ _ trayState elevenApps [JNull]);
    [vm_compute; lia | reflexivity | reflexivity].
Defined.


